(** * The balance ledger and the order / top-up life cycle of the store bot

    A shallow embedding of [database.py] (class [Database]) and of the
    handlers of [purchase.py] and [recharge.py] that drive it.

    Modelling decisions.
    - The SQLite file is a record of tables.  Tables with a primary key are
      finite maps from the key to the row; [balance_history] and [admin_logs]
      are lists in insertion order.
    - Every method of [Database] opens its own connection, runs
      [BEGIN TRANSACTION] ... [COMMIT] or [ROLLBACK] and closes it.  A method
      is a function from the store to the store and the returned value; a
      statement that raises is [None] in the [sql] monad and the surrounding
      [except] clause rolls back.
    - Execution is sequential: one method runs to its end before the next
      starts.
    - Amounts ([Decimal] in Python, [REAL] columns in SQLite) are whole
      numbers, the amount counted in its smallest unit, and the methods of
      [Database] add them exactly.  SQLite adds them as doubles: the two
      agree as long as the numbers stay within 2^53 in absolute value.
      Module [Real64] gives [update_user_balance] with the arithmetic of the
      [REAL] column, for the claim that depends on it.
    - [CURRENT_TIMESTAMP] is an argument [now] of the operation.
    - Telegram messages are not modelled; a handler returns the store and a
      tag that names the reply it sends. *)

From Stdlib Require Import ZArith String List Lia.
From stdpp Require Import base option list gmap fin_maps strings pretty.

Local Open Scope Z_scope.
Local Open Scope string_scope.

(** ** Rows and tables *)

(** [CHECK (status IN ('pending', 'completed', 'rejected', 'expired'))] of
    the tables [orders] and [transactions]. *)
Inductive row_status := pending | completed | rejected | expired.

(** [CHECK (status IN ('active', 'banned', 'suspended'))] of [users]. *)
Inductive user_status := active | banned | suspended.

(** [CHECK (product_type IN ('game', 'app'))]. *)
Inductive product_type := game | app.

(** [CHECK (type IN ('deposit', 'withdrawal'))]. *)
Inductive tx_type := deposit | withdrawal.

(** The value of [transaction_type] in [balance_history]. *)
Inductive history_kind := credit | debit.

(** A value held by a column whose content is not always a number.
    [NumericText t] is what a column of [REAL] affinity keeps of the text
    [t]: the number [t] spells when it is a well-formed numeric literal, the
    text itself otherwise. *)
Inductive cell :=
| Null
| Real (z : Z)
| Text (s : string)
| NumericText (s : string).

#[global] Instance row_status_eq_dec : EqDecision row_status.
Proof. solve_decision. Defined.
#[global] Instance user_status_eq_dec : EqDecision user_status.
Proof. solve_decision. Defined.
#[global] Instance product_type_eq_dec : EqDecision product_type.
Proof. solve_decision. Defined.
#[global] Instance cell_eq_dec : EqDecision cell.
Proof. solve_decision. Defined.
#[global] Instance tx_type_eq_dec : EqDecision tx_type.
Proof. solve_decision. Defined.
#[global] Instance history_kind_eq_dec : EqDecision history_kind.
Proof. solve_decision. Defined.

(** The status strings of the schema. *)
Definition status_of_string (s : string) : option row_status :=
  if decide (s = "pending") then Some pending
  else if decide (s = "completed") then Some completed
  else if decide (s = "rejected") then Some rejected
  else if decide (s = "expired") then Some expired
  else None.

(** Table [users]; the columns the ledger reads or writes. *)
Record user_row := {
  u_balance : Z;
  u_status : user_status;
  u_updated_at : string
}.

(** Table [balance_history]. *)
Record history_row := {
  h_user_id : Z;
  h_old_balance : Z;
  h_new_balance : Z;
  h_change_amount : Z;
  h_transaction_type : history_kind;
  h_admin_id : Z
}.

(** Table [orders]; the key [order_id] is the key of the map. *)
Record order_row := {
  o_user_id : Z;
  o_product_type : product_type;
  o_product_id : string;
  o_amount : string;
  o_price : Z;
  o_created_at : string;
  o_completed_at : option string;
  o_status : row_status
}.

(** Python values that travel in [context.user_data] and in [**kwargs]. *)
#[warnings="-register-all"]
Inductive pyval :=
| PyNone
| PyStr (s : string)
| PyInt (z : Z)
| PyDecimal (z : Z)
| PyDict (items : list (string * pyval)).

(** Table [transactions]; the key [tx_id] is the key of the map.
    [tx_payment_details] keeps the value whose JSON text the column holds. *)
Record tx_row := {
  tx_user_id : Z;
  tx_amount : Z;
  tx_type_ : tx_type;
  tx_payment_method : string;
  tx_payment_details : pyval;
  tx_payment_subtype : option string;
  tx_payment_number : option string;
  tx_original_amount : cell;
  tx_original_currency : cell;
  tx_exchange_rate : cell;
  tx_created_at : string;
  tx_completed_at : option string;
  tx_status : row_status;
  tx_reject_reason : option string;
  tx_admin_id : option Z
}.

(** Table [admin_logs]. *)
Record admin_log_row := {
  l_admin_id : Z;
  l_action : string;
  l_details : string;
  l_target_user_id : option Z
}.

(** The database file.  [orders_seq] is the [sqlite_sequence] entry of the
    [AUTOINCREMENT] key of [orders]. *)
Record db := {
  users : gmap Z user_row;
  balance_history : list history_row;
  orders : gmap Z order_row;
  orders_seq : Z;
  transactions : gmap string tx_row;
  admin_logs : list admin_log_row
}.

Definition empty_db : db :=
  {| users := ∅; balance_history := []; orders := ∅; orders_seq := 0;
     transactions := ∅; admin_logs := [] |}.

Definition set_users (s : db) (us : gmap Z user_row) : db :=
  {| users := us; balance_history := balance_history s; orders := orders s;
     orders_seq := orders_seq s; transactions := transactions s;
     admin_logs := admin_logs s |}.

Definition set_orders (s : db) (os : gmap Z order_row) (seq : Z) : db :=
  {| users := users s; balance_history := balance_history s; orders := os;
     orders_seq := seq; transactions := transactions s;
     admin_logs := admin_logs s |}.

Definition set_transactions (s : db) (ts : gmap string tx_row) : db :=
  {| users := users s; balance_history := balance_history s; orders := orders s;
     orders_seq := orders_seq s; transactions := ts;
     admin_logs := admin_logs s |}.

Definition add_history (s : db) (h : history_row) : db :=
  {| users := users s; balance_history := balance_history s ++ [h];
     orders := orders s; orders_seq := orders_seq s;
     transactions := transactions s; admin_logs := admin_logs s |}.

Definition add_admin_log (s : db) (l : admin_log_row) : db :=
  {| users := users s; balance_history := balance_history s; orders := orders s;
     orders_seq := orders_seq s; transactions := transactions s;
     admin_logs := admin_logs s ++ [l] |}.

(** [SET balance = b, updated_at = CURRENT_TIMESTAMP] on a row of [users]. *)
Definition with_balance (u : user_row) (b : Z) (now : string) : user_row :=
  {| u_balance := b; u_status := u_status u; u_updated_at := now |}.

(** [SET status = st, completed_at = CURRENT_TIMESTAMP] on a row of
    [orders]. *)
Definition with_order_status (o : order_row) (st : row_status) (now : string)
  : order_row :=
  {| o_user_id := o_user_id o; o_product_type := o_product_type o;
     o_product_id := o_product_id o; o_amount := o_amount o;
     o_price := o_price o; o_created_at := o_created_at o;
     o_completed_at := Some now; o_status := st |}.

(** [SET status = st, completed_at = CURRENT_TIMESTAMP, admin_id = ?] on a
    row of [transactions], with [reject_reason = ?] when [reason] is given. *)
Definition with_tx_closed (t : tx_row) (st : row_status)
    (reason : option string) (admin_id : Z) (now : string) : tx_row :=
  {| tx_user_id := tx_user_id t; tx_amount := tx_amount t;
     tx_type_ := tx_type_ t; tx_payment_method := tx_payment_method t;
     tx_payment_details := tx_payment_details t;
     tx_payment_subtype := tx_payment_subtype t;
     tx_payment_number := tx_payment_number t;
     tx_original_amount := tx_original_amount t;
     tx_original_currency := tx_original_currency t;
     tx_exchange_rate := tx_exchange_rate t;
     tx_created_at := tx_created_at t;
     tx_completed_at := Some now;
     tx_status := st;
     tx_reject_reason := match reason with
                         | Some r => Some r
                         | None => tx_reject_reason t
                         end;
     tx_admin_id := Some admin_id |}.

(** ** Statements inside one SQL transaction *)

(** A statement reads and writes the store and returns a value, or raises
    ([None]). *)
Definition sql (A : Type) : Type := db -> option (db * A).

Definition sql_ret {A} (a : A) : sql A := fun s => Some (s, a).

Definition sql_bind {A B} (m : sql A) (k : A -> sql B) : sql B :=
  fun s => match m s with
           | Some (s', a) => k a s'
           | None => None
           end.

Definition sql_raise {A} : sql A := fun _ => None.

Notation "'let*' x ':=' m 'in' k" := (sql_bind m (fun x => k))
  (at level 10, x name, m at level 100, k at level 200).

(** How the body of a method ends: [COMMIT] and return, or [ROLLBACK] and
    return. *)
Inductive ending (A : Type) :=
| Commit (a : A)
| Rollback (a : A).
Arguments Commit {A} a.
Arguments Rollback {A} a.

(** [try: BEGIN TRANSACTION; body  except Exception: ROLLBACK; return dflt]. *)
Definition atomically {A} (dflt : A) (body : sql (ending A)) (s : db) : db * A :=
  match body s with
  | Some (s', Commit a) => (s', a)
  | Some (_, Rollback a) => (s, a)
  | None => (s, dflt)
  end.

(** [UPDATE users SET balance = balance + ?, updated_at = CURRENT_TIMESTAMP
     WHERE user_id = ?]; the value is [rowcount].  The column constraint
    [CHECK (balance >= 0)] makes the statement raise.  The sum is the exact
    one, which is the sum of the column as long as the numbers stay within
    2^53. *)
Definition add_to_balance (user_id amount : Z) (now : string) : sql nat :=
  fun s =>
    match users s !! user_id with
    | None => Some (s, 0%nat)
    | Some u =>
        if decide (0 <= u_balance u + amount) then
          Some (set_users s
                  (<[user_id := with_balance u (u_balance u + amount) now]>
                     (users s)),
                1%nat)
        else None
    end.

(** [UPDATE users SET balance = balance + ?, updated_at = CURRENT_TIMESTAMP
     WHERE user_id = ? AND balance + ? >= 0], with the exact sum;
    [Real64.add_to_balance_if_covered] is the statement with the sum of the
    column, and the two agree as long as the numbers stay within 2^53. *)
Definition add_to_balance_if_covered (user_id amount : Z) (now : string) : sql nat :=
  fun s =>
    match users s !! user_id with
    | None => Some (s, 0%nat)
    | Some u =>
        if decide (0 <= u_balance u + amount) then
          Some (set_users s
                  (<[user_id := with_balance u (u_balance u + amount) now]>
                     (users s)),
                1%nat)
        else Some (s, 0%nat)
    end.

(** [UPDATE users SET balance = ?, updated_at = CURRENT_TIMESTAMP
     WHERE user_id = ?], under the same [CHECK]. *)
Definition set_balance (user_id new_balance : Z) (now : string) : sql nat :=
  fun s =>
    match users s !! user_id with
    | None => Some (s, 0%nat)
    | Some u =>
        if decide (0 <= new_balance) then
          Some (set_users s
                  (<[user_id := with_balance u new_balance now]> (users s)),
                1%nat)
        else None
    end.

(** [SELECT balance FROM users WHERE user_id = ?]; [fetchone()]. *)
Definition select_balance (user_id : Z) : sql (option Z) :=
  fun s => Some (s, u_balance <$> users s !! user_id).

Definition insert_history (h : history_row) : sql unit :=
  fun s => Some (add_history s h, tt).

Definition insert_admin_log (l : admin_log_row) : sql unit :=
  fun s => Some (add_admin_log s l, tt).

(** The row [create_order] inserts: the [VALUES] of its [INSERT], with
    [status] ['pending']. *)
Definition new_order (user_id : Z) (ptype : product_type)
    (product_id game_id : string) (price : Z) (now : string) : order_row :=
  {| o_user_id := user_id; o_product_type := ptype; o_product_id := product_id;
     o_amount := game_id; o_price := price; o_created_at := now;
     o_completed_at := None; o_status := pending |}.

(** The rows the life-cycle methods append to [admin_logs]. *)
Definition confirm_log (tx_id : string) (admin_id user_id : Z) : admin_log_row :=
  {| l_admin_id := admin_id; l_action := "confirm_transaction";
     l_details := "Confirmed transaction " +:+ tx_id;
     l_target_user_id := Some user_id |}.

Definition reject_log (tx_id : string) (admin_id : Z) (reason : string)
    (user_id : Z) : admin_log_row :=
  {| l_admin_id := admin_id; l_action := "reject_transaction";
     l_details := "Rejected transaction " +:+ tx_id +:+
                  " with reason: " +:+ reason;
     l_target_user_id := Some user_id |}.

Definition reject_order_log (order_id admin_id user_id : Z) : admin_log_row :=
  {| l_admin_id := admin_id; l_action := "reject_order";
     l_details := "Rejected order " +:+ pretty order_id;
     l_target_user_id := Some user_id |}.

(** ** [database.py]: the methods of [Database] *)

Module Database.

(** ** The ledger: [get_user_balance], [update_user_balance],
       [modify_user_balance] *)

(** [Database.get_user_balance]: [Decimal('0')] for an unknown user. *)
Definition get_user_balance (s : db) (user_id : Z) : Z :=
  match users s !! user_id with
  | Some u => u_balance u
  | None => 0
  end.

(** [Database.update_user_balance]. *)
Definition update_user_balance (s : db) (user_id amount : Z) (now : string)
  : db * bool :=
  atomically false
    (let* rowcount := add_to_balance_if_covered user_id amount now in
     if decide (0 < rowcount)%nat then sql_ret (Commit true)
     else sql_ret (Rollback false)) s.

(** [Database.modify_user_balance].  The sum and the test are [Decimal]
    arithmetic in Python, which is exact; the numbers the method stores go
    to [REAL] columns, which hold them as they are up to 2^53. *)
Definition modify_user_balance (s : db) (user_id amount admin_id : Z)
    (now : string) : db * bool :=
  atomically false
    (let* result := select_balance user_id in
     match result with
     | None => sql_ret (Rollback false)
     | Some current_balance =>
         let new_balance := current_balance + amount in
         if decide (new_balance < 0) then sql_ret (Rollback false)
         else
           let* _ := set_balance user_id new_balance now in
           let* _ := insert_history
             {| h_user_id := user_id; h_old_balance := current_balance;
                h_new_balance := new_balance; h_change_amount := amount;
                h_transaction_type :=
                  if decide (0 < amount) then credit else debit;
                h_admin_id := admin_id |} in
           let* _ := insert_admin_log
             {| l_admin_id := admin_id; l_action := "modify_balance";
                l_details := "Modified balance by " +:+ pretty amount;
                l_target_user_id := Some user_id |} in
           sql_ret (Commit true)
     end) s.

(** ** Orders: [create_order], [get_order], [update_order_status],
       [reject_order] *)

(** The largest key of [orders], 0 for the empty table. *)
Definition max_order_id (os : gmap Z order_row) : Z :=
  foldr Z.max 0 (fst <$> map_to_list os).

(** The key an [AUTOINCREMENT] insert takes: one more than the largest key
    the table has or ever had. *)
Definition next_order_id (s : db) : Z :=
  Z.succ (Z.max (orders_seq s) (max_order_id (orders s))).

(** [INSERT INTO orders (...) VALUES (...) RETURNING order_id];
    [fetchone()]. *)
Definition insert_order (row : order_row) : sql (option Z) :=
  fun s =>
    let order_id := next_order_id s in
    Some (set_orders s (<[order_id := row]> (orders s)) order_id, Some order_id).

(** [Database.create_order]; the argument [quantity] is not used by the
    method. *)
Definition create_order (s : db) (user_id : Z) (ptype : product_type)
    (product_id game_id : string) (price : Z) (now : string) : db * option Z :=
  atomically None
    (let* result :=
       insert_order (new_order user_id ptype product_id game_id price now) in
     match result with
     | Some order_id => sql_ret (Commit (Some order_id))
     | None => sql_ret (Rollback None)
     end) s.

(** [Database.get_order]. *)
Definition get_order (s : db) (order_id : Z) : option order_row :=
  orders s !! order_id.

(** [UPDATE orders SET status = ?, completed_at = CURRENT_TIMESTAMP
     WHERE order_id = ?]; a status outside the [CHECK] list raises when a
    row is written. *)
Definition set_order_status (order_id : Z) (status : string) (now : string)
  : sql nat :=
  fun s =>
    match orders s !! order_id with
    | None => Some (s, 0%nat)
    | Some o =>
        match status_of_string status with
        | None => None
        | Some st =>
            Some (set_orders s
                    (<[order_id := with_order_status o st now]> (orders s))
                    (orders_seq s),
                  1%nat)
        end
    end.

(** [Database.update_order_status]. *)
Definition update_order_status (s : db) (order_id : Z) (status : string)
    (admin_id : Z) (now : string) : db * bool :=
  atomically false
    (let* _ := set_order_status order_id status now in
     let* _ := insert_admin_log
       {| l_admin_id := admin_id; l_action := "update_order_status";
          l_details := "Updated order " +:+ pretty order_id +:+
                       " to status " +:+ status;
          l_target_user_id := None |} in
     sql_ret (Commit true)) s.

(** [SELECT user_id, price FROM orders WHERE order_id = ?]. *)
Definition select_order (order_id : Z) : sql (option order_row) :=
  fun s => Some (s, orders s !! order_id).

(** [Database.reject_order]. *)
Definition reject_order (s : db) (order_id admin_id : Z) (now : string)
  : db * bool :=
  atomically false
    (let* result := select_order order_id in
     match result with
     | None => sql_ret (Rollback false)
     | Some o =>
         let user_id := o_user_id o in
         let price := o_price o in
         let* _ := set_order_status order_id "rejected" now in
         let* _ := add_to_balance user_id price now in
         let* _ := insert_admin_log (reject_order_log order_id admin_id user_id) in
         sql_ret (Commit true)
     end) s.

(** ** Transactions: [create_transaction], [get_transaction],
       [confirm_transaction], [reject_transaction],
       [cleanup_expired_transactions] *)

(** [json.dumps] accepts [None], strings, integers and dictionaries of such
    values; a [Decimal] makes it raise [TypeError]. *)
Fixpoint json_serializable (v : pyval) : bool :=
  match v with
  | PyNone | PyStr _ | PyInt _ => true
  | PyDecimal _ => false
  | PyDict items => forallb (fun kv => json_serializable kv.2) items
  end.

(** [kwargs.get(key, dflt)]. *)
Definition kwargs_get (kwargs : gmap string pyval) (key : string)
    (dflt : pyval) : pyval :=
  match kwargs !! key with
  | Some v => v
  | None => dflt
  end.

(** [repr(v)]; quotes inside a string are not escaped by the model. *)
Fixpoint py_repr (v : pyval) : string :=
  match v with
  | PyNone => "None"
  | PyStr t => "'" +:+ t +:+ "'"
  | PyInt z => pretty z
  | PyDecimal z => "Decimal('" +:+ pretty z +:+ "')"
  | PyDict items =>
      "{" +:+
      (fix go (l : list (string * pyval)) : string :=
         match l with
         | [] => ""
         | [(k, x)] => "'" +:+ k +:+ "': " +:+ py_repr x
         | (k, x) :: l' => "'" +:+ k +:+ "': " +:+ py_repr x +:+ ", " +:+ go l'
         end) items
      +:+ "}"
  end.

(** [str(v)]. *)
Definition py_str (v : pyval) : string :=
  match v with
  | PyStr t => t
  | PyDecimal z => pretty z
  | _ => py_repr v
  end.

(** [str(v)] bound to a [REAL] column: the text of a number is stored as the
    number, a text that spells no number ([str(None)] is ['None'], the text
    of a dictionary starts with a brace) stays text.  Whether the text of a
    [str] argument spells a number is left to the column. *)
Definition bind_str_real (v : pyval) : cell :=
  match v with
  | PyInt z | PyDecimal z => Real z
  | PyStr t => NumericText t
  | PyNone | PyDict _ => Text (py_str v)
  end.

(** [v] bound to a [TEXT] column; [sqlite3] cannot bind a [Decimal] or a
    dictionary. *)
Definition bind_text (v : pyval) : option cell :=
  match v with
  | PyNone => Some Null
  | PyStr t => Some (Text t)
  | PyInt z => Some (Text (pretty z))
  | PyDecimal _ | PyDict _ => None
  end.

(** [INSERT INTO transactions (...)]; the key [tx_id] is unique. *)
Definition insert_transaction (tx_id : string) (row : tx_row) : sql unit :=
  fun s =>
    match transactions s !! tx_id with
    | Some _ => None
    | None => Some (set_transactions s (<[tx_id := row]> (transactions s)), tt)
    end.

(** [Database.create_transaction]. *)
Definition create_transaction (s : db) (tx_id : string) (user_id amount : Z)
    (payment_method : string) (payment_subtype payment_number : option string)
    (kwargs : gmap string pyval) (now : string) : db * bool :=
  atomically false
    (let details := kwargs_get kwargs "payment_details" (PyDict []) in
     if json_serializable details then
       let oa :=
         bind_str_real (kwargs_get kwargs "original_amount" (PyDecimal amount)) in
       let er :=
         bind_str_real (kwargs_get kwargs "exchange_rate" (PyInt 1)) in
       match bind_text (kwargs_get kwargs "original_currency" (PyStr "SYP")) with
       | Some oc =>
           let* _ := insert_transaction tx_id
             {| tx_user_id := user_id; tx_amount := amount;
                tx_type_ := deposit; tx_payment_method := payment_method;
                tx_payment_details := details;
                tx_payment_subtype := payment_subtype;
                tx_payment_number := payment_number;
                tx_original_amount := oa; tx_original_currency := oc;
                tx_exchange_rate := er; tx_created_at := now;
                tx_completed_at := None; tx_status := pending;
                tx_reject_reason := None; tx_admin_id := None |} in
           sql_ret (Commit true)
       | None => sql_raise
       end
     else sql_raise) s.

(** [Database.get_transaction]. *)
Definition get_transaction (s : db) (tx_id : string) : option tx_row :=
  transactions s !! tx_id.

(** [SELECT user_id, amount FROM transactions WHERE tx_id = ?]. *)
Definition select_transaction (tx_id : string) : sql (option tx_row) :=
  fun s => Some (s, transactions s !! tx_id).

(** [UPDATE transactions SET status = ..., reject_reason = ...,
     completed_at = CURRENT_TIMESTAMP, admin_id = ? WHERE tx_id = ?];
    [reason] is [None] for the statement that leaves [reject_reason] alone. *)
Definition close_transaction (tx_id : string) (st : row_status)
    (reason : option string) (admin_id : Z) (now : string) : sql nat :=
  fun s =>
    match transactions s !! tx_id with
    | None => Some (s, 0%nat)
    | Some t =>
        Some (set_transactions s
                (<[tx_id := with_tx_closed t st reason admin_id now]>
                   (transactions s)),
              1%nat)
    end.

(** [Database.confirm_transaction]. *)
Definition confirm_transaction (s : db) (tx_id : string) (admin_id : Z)
    (now : string) : db * bool :=
  atomically false
    (let* result := select_transaction tx_id in
     match result with
     | None => sql_ret (Rollback false)
     | Some t =>
         let user_id := tx_user_id t in
         let amount := tx_amount t in
         let* _ := close_transaction tx_id completed None admin_id now in
         let* _ := add_to_balance user_id amount now in
         let* _ := insert_admin_log (confirm_log tx_id admin_id user_id) in
         sql_ret (Commit true)
     end) s.

(** [Database.reject_transaction]. *)
Definition reject_transaction (s : db) (tx_id : string) (admin_id : Z)
    (reason : string) (now : string) : db * bool :=
  atomically false
    (let* result := select_transaction tx_id in
     match result with
     | None => sql_ret (Rollback false)
     | Some t =>
         let user_id := tx_user_id t in
         let amount := tx_amount t in
         let* _ := close_transaction tx_id rejected (Some reason) admin_id now in
         let* _ := add_to_balance user_id amount now in
         let* _ := insert_admin_log (reject_log tx_id admin_id reason user_id) in
         sql_ret (Commit true)
     end) s.

(** The [WHERE] clause of the sweep: [status = 'pending' AND created_at < ?],
    a comparison of two texts. *)
Definition is_stale (cutoff : string) (t : tx_row) : bool :=
  bool_decide (tx_status t = pending) && String.ltb (tx_created_at t) cutoff.

(** [DELETE FROM transactions WHERE status = 'pending' AND created_at < ?];
    the value is [rowcount]. *)
Definition delete_stale (cutoff : string) : sql nat :=
  fun s =>
    let deleted := filter (fun kt => is_stale cutoff kt.2 = true) (transactions s) in
    let kept := filter (fun kt => is_stale cutoff kt.2 = false) (transactions s) in
    Some (set_transactions s kept, size deleted).

(** [Database.cleanup_expired_transactions]; [cutoff] is
    [adapt_datetime(expiry_time)], the ISO text of the cut-off time. *)
Definition cleanup_expired_transactions (s : db) (cutoff : string) : db * nat :=
  atomically 0%nat
    (let* deleted_count := delete_stale cutoff in
     sql_ret (Commit deleted_count)) s.

(** [UPDATE users SET status = ?, updated_at = CURRENT_TIMESTAMP
     WHERE user_id = ?]; the value is [rowcount]. *)
Definition set_user_status (user_id : Z) (st : user_status) (now : string)
  : sql nat :=
  fun s =>
    match users s !! user_id with
    | None => Some (s, 0%nat)
    | Some u =>
        Some (set_users s
                (<[user_id := {| u_balance := u_balance u; u_status := st;
                                  u_updated_at := now |}]> (users s)),
              1%nat)
    end.

(** [Database.ban_user]. *)
Definition ban_user (s : db) (user_id admin_id : Z) (now : string) : db * bool :=
  atomically false
    (let* rowcount := set_user_status user_id banned now in
     if decide (0 < rowcount)%nat then
       let* _ := insert_admin_log
         {| l_admin_id := admin_id; l_action := "ban_user";
            l_details := "User " +:+ pretty user_id +:+ " was banned";
            l_target_user_id := Some user_id |} in
       sql_ret (Commit true)
     else sql_ret (Rollback false)) s.

(** [Database.unban_user]. *)
Definition unban_user (s : db) (user_id admin_id : Z) (now : string)
  : db * bool :=
  atomically false
    (let* rowcount := set_user_status user_id active now in
     if decide (0 < rowcount)%nat then
       let* _ := insert_admin_log
         {| l_admin_id := admin_id; l_action := "unban_user";
            l_details := "User " +:+ pretty user_id +:+ " was unbanned";
            l_target_user_id := Some user_id |} in
       sql_ret (Commit true)
     else sql_ret (Rollback false)) s.

(** [SUM(f)] over the rows of a table, 0 for no row ([COALESCE(SUM(..), 0)]). *)
Definition sum_rows {K : Type} `{Countable K} {A : Type} (f : A -> Z)
    (m : gmap K A) : Z :=
  map_fold (fun _ a acc => f a + acc) 0 m.

(** [Database.get_total_users]. *)
Definition get_total_users (s : db) : nat := size (users s).

(** [Database.get_total_transaction_volume]:
    [SELECT COALESCE(SUM(amount), 0) FROM transactions
     WHERE status = 'completed']. *)
Definition get_total_transaction_volume (s : db) : Z :=
  sum_rows tx_amount
    (filter (fun kt => tx_status kt.2 = completed) (transactions s)).

(** The numbers in the dictionary [get_user_stats] returns; the name and date
    entries are columns the model does not hold. *)
Record user_stats := {
  current_balance : Z;
  is_banned : bool;
  total_transactions : nat;
  total_deposits : Z;
  total_withdrawals : Z;
  total_orders : nat;
  total_spent : Z
}.

(** [Database.get_user_stats]; the date columns are taken to parse. *)
Definition get_user_stats (s : db) (user_id : Z) : option user_stats :=
  match users s !! user_id with
  | None => None
  | Some user =>
      let txs := filter (fun kt => tx_user_id kt.2 = user_id) (transactions s) in
      let ords := filter (fun ko => o_user_id ko.2 = user_id) (orders s) in
      Some {| current_balance := u_balance user;
              is_banned := bool_decide (u_status user = banned);
              total_transactions := size txs;
              total_deposits :=
                sum_rows (fun t => if decide (tx_type_ t = deposit /\
                                              tx_status t = completed)
                                   then tx_amount t else 0) txs;
              total_withdrawals :=
                sum_rows (fun t => if decide (tx_type_ t = withdrawal /\
                                              tx_status t = completed)
                                   then tx_amount t else 0) txs;
              total_orders := size ords;
              total_spent :=
                sum_rows (fun o => if decide (o_status o = completed)
                                   then o_price o else 0) ords |}
  end.

End Database.

(** ** The arithmetic of the [REAL] column *)

(** [balance] is a [REAL] column: SQLite keeps a double and evaluates
    [balance + ?] in double arithmetic.  For whole amounts a double is a
    whole number as well, and the sum of two doubles is the double nearest
    to their exact sum. *)
Module Real64.

(** The double nearest to the whole number [x]: [x] itself below 2^53, and
    from there on [x] rounded to 53 significant bits, a tie going to the
    even one.  (A double ends below 2^1024; the model sets no such bound
    on the magnitude.) *)
Definition round (x : Z) : Z :=
  let m := Z.abs x in
  if decide (m < 2 ^ 53) then x
  else
    let e := Z.log2 m - 52 in
    let q := m / 2 ^ e in
    let r := m mod 2 ^ e in
    let q' := if decide (2 * r < 2 ^ e) then q
              else if decide (2 ^ e < 2 * r) then q + 1
              else if Z.even q then q else q + 1 in
    Z.sgn x * (q' * 2 ^ e).

(** The parameter [str(amount)] inside [balance + ?]: SQLite reads the text
    of a whole number as a number -- a 64-bit integer when it fits, a real
    number otherwise -- and the sum takes it as the nearest double. *)
Definition of_text (amount : Z) : Z := round amount.

(** [x + y] on two doubles. *)
Definition add (x y : Z) : Z := round (x + y).

(** [UPDATE users SET balance = balance + ?, updated_at = CURRENT_TIMESTAMP
     WHERE user_id = ? AND balance + ? >= 0], the sum taken as SQLite takes
    it. *)
Definition add_to_balance_if_covered (user_id amount : Z) (now : string)
  : sql nat :=
  fun s =>
    match users s !! user_id with
    | None => Some (s, 0%nat)
    | Some u =>
        let new_balance := add (u_balance u) (of_text amount) in
        if decide (0 <= new_balance) then
          Some (set_users s
                  (<[user_id := with_balance u new_balance now]> (users s)),
                1%nat)
        else Some (s, 0%nat)
    end.

(** [Database.update_user_balance] over that statement. *)
Definition update_user_balance (s : db) (user_id amount : Z) (now : string)
  : db * bool :=
  atomically false
    (let* rowcount := add_to_balance_if_covered user_id amount now in
     if decide (0 < rowcount)%nat then sql_ret (Commit true)
     else sql_ret (Rollback false)) s.

End Real64.

(** ** [purchase.py]: the handlers of [PurchaseManager] *)

Module PurchaseManager.

(** The keys of [context.user_data] that [_process_purchase] reads. *)
Record purchase_data := {
  pd_product_type : product_type;
  pd_product_id : string;
  pd_price : Z
}.

(** The reply of [_process_purchase]. *)
Inductive purchase_reply :=
| InsufficientBalance
| OrderCreationError
| BalanceDeductionError
| OrderReceived (order_id : Z).

(** [PurchaseManager._process_purchase]; [uid] is
    [update.effective_user.id], [game_id] the text the user sent. *)
Definition _process_purchase (s : db) (uid : Z) (data : purchase_data)
    (game_id : string) (now : string) : db * purchase_reply :=
  let user_balance := Database.get_user_balance s uid in
  let price := pd_price data in
  if decide (user_balance < price) then (s, InsufficientBalance)
  else
    let '(s1, order_id) :=
      Database.create_order s uid (pd_product_type data) (pd_product_id data)
        game_id price now in
    match order_id with
    | None => (s1, OrderCreationError)
    | Some oid =>
        if decide (oid = 0) then (s1, OrderCreationError)
        else
          let '(s2, ok) := Database.update_user_balance s1 uid (- price) now in
          if ok then (s2, OrderReceived oid)
          else (s2, BalanceDeductionError)
    end.

(** What [confirm_order] and [reject_order] leave on the message of the
    administrator.  After a successful write both handlers edit the message
    to the done text and go on to notify the buyer.  The text of that notice
    reads [order['game_id']], and the row [get_order] returned has no such
    column (the id the buyer sent is kept in [amount]): the lookup raises,
    the [except] clause edits the message to the unexpected-error text, and
    no notice is sent.  [OrderWrittenThenUnexpectedError] is that course. *)
Inductive order_reply :=
| OrderNotFound
| OrderAlreadyProcessed
| OrderUpdateError
| OrderWrittenThenUnexpectedError.

(** [PurchaseManager.confirm_order]; [order_id] is the number in the
    callback data, [admin_id] is [query.from_user.id]. *)
Definition confirm_order (s : db) (order_id admin_id : Z) (now : string)
  : db * order_reply :=
  match Database.get_order s order_id with
  | None => (s, OrderNotFound)
  | Some order =>
      if decide (o_status order <> pending) then (s, OrderAlreadyProcessed)
      else
        let '(s1, ok) :=
          Database.update_order_status s order_id "completed" admin_id now in
        if ok then (s1, OrderWrittenThenUnexpectedError)
        else (s1, OrderUpdateError)
  end.

(** [PurchaseManager.reject_order]. *)
Definition reject_order (s : db) (order_id admin_id : Z) (now : string)
  : db * order_reply :=
  match Database.get_order s order_id with
  | None => (s, OrderNotFound)
  | Some order =>
      if decide (o_status order <> pending) then (s, OrderAlreadyProcessed)
      else
        let '(s1, ok) := Database.reject_order s order_id admin_id now in
        if ok then (s1, OrderWrittenThenUnexpectedError)
        else (s1, OrderUpdateError)
  end.

(** A Python [float]: the value nearest to [num / den]. *)
Inductive py_float := FloatOfRatio (num den : Z).

(** [a / b] on two [int]s: a [float], or [ZeroDivisionError]. *)
Definition int_truediv (a b : Z) : option py_float :=
  if decide (b = 0) then None else Some (FloatOfRatio a b).

(** [d * x] for a [Decimal] [d] and a [float] [x]: neither type accepts the
    other, the operator raises [TypeError]. *)
Definition decimal_times_float (d : Z) (x : py_float) : option Z := None.

(** The keys of [context.user_data] that [handle_buy_app] writes and
    [handle_app_quantity] reads and writes; [ad_price] and [ad_quantity] are
    absent until [handle_app_quantity] stores them. *)
Record app_data := {
  ad_product_id : string;
  ad_base_price : Z;
  ad_min_quantity : Z;
  ad_quantity : option Z;
  ad_price : option Z
}.

Inductive quantity_reply :=
| QuantityBelowMinimum
| QuantityNotANumber
| QuantityRaised
| AskForAppId.

(** [PurchaseManager.handle_app_quantity]; [input] is [int(text)], [None]
    when it raises [ValueError].  An exception that is not a [ValueError]
    leaves the handler. *)
Definition handle_app_quantity (d : app_data) (input : option Z)
  : app_data * quantity_reply :=
  match input with
  | None => (d, QuantityNotANumber)
  | Some quantity =>
      let min_quantity := ad_min_quantity d in
      if decide (quantity < min_quantity) then (d, QuantityBelowMinimum)
      else
        let base_price := ad_base_price d in
        match int_truediv quantity min_quantity with
        | None => (d, QuantityRaised)
        | Some units =>
            match decimal_times_float base_price units with
            | None => (d, QuantityRaised)
            | Some total_price =>
                ({| ad_product_id := ad_product_id d;
                    ad_base_price := ad_base_price d;
                    ad_min_quantity := ad_min_quantity d;
                    ad_quantity := Some quantity;
                    ad_price := Some total_price |}, AskForAppId)
            end
        end
  end.

End PurchaseManager.

(** ** [recharge.py]: the handlers of [RechargeManager] *)

Module RechargeManager.

(** [config.USD_RATE] and [config.USDT_RATE]. *)
Record config := {
  USD_RATE : Z;
  USDT_RATE : Z
}.

(** The keys of [context.user_data] that the recharge handlers write, each
    with the type they write; [None] is an absent key. *)
Record recharge_data := {
  payment_type : option string;
  payment_method : option string;
  wallet_details : option pyval;
  currency : option string;
  sham_type : option string;
  amount : option Z;
  original_amount : option Z;
  original_currency : option string;
  reject_tx_id : option string
}.

(** The dictionary itself, as [payment_details=payment_data] passes it. *)
Definition as_dict (d : recharge_data) : pyval :=
  let str_item (k : string) (o : option string) :=
    match o with Some v => [(k, PyStr v)] | None => [] end in
  let dec_item (k : string) (o : option Z) :=
    match o with Some v => [(k, PyDecimal v)] | None => [] end in
  PyDict (str_item "payment_type" (payment_type d) ++
          str_item "payment_method" (payment_method d) ++
          match wallet_details d with
          | Some w => [("wallet_details", w)]
          | None => []
          end ++
          str_item "currency" (currency d) ++
          str_item "sham_type" (sham_type d) ++
          dec_item "amount" (amount d) ++
          dec_item "original_amount" (original_amount d) ++
          str_item "original_currency" (original_currency d) ++
          str_item "reject_tx_id" (reject_tx_id d)).

Definition set_amounts (d : recharge_data) (a : Z) (oa : option Z)
    (oc : option string) : recharge_data :=
  {| payment_type := payment_type d; payment_method := payment_method d;
     wallet_details := wallet_details d; currency := currency d;
     sham_type := sham_type d; amount := Some a;
     original_amount :=
       match oa with Some x => Some x | None => original_amount d end;
     original_currency :=
       match oc with Some x => Some x | None => original_currency d end;
     reject_tx_id := reject_tx_id d |}.

Inductive amount_reply :=
| AmountRejected
| AmountRaised
| AskForTxid.

(** [RechargeManager.handle_amount]; [input] is the [Decimal] read from
    the message. *)
Definition handle_amount (cfg : config) (d : recharge_data) (input : Z)
  : recharge_data * amount_reply :=
  if decide (input <= 0) then (d, AmountRejected)
  else if decide (payment_method d = Some "crypto") then
    match currency d with
    | None => (d, AmountRaised)
    | Some cur =>
        let rate := if decide (cur = "USDT") then USDT_RATE cfg else USD_RATE cfg in
        let syp_amount := input * rate in
        (set_amounts d syp_amount (Some input) (Some cur), AskForTxid)
    end
  else if decide (payment_method d = Some "shamcash") then
    if decide (sham_type d = Some "usd") then
      let syp_amount := input * USD_RATE cfg in
      (set_amounts d syp_amount (Some input) (Some "USD"), AskForTxid)
    else (set_amounts d input None None, AskForTxid)
  else (set_amounts d input None None, AskForTxid).

(** The keyword arguments of the one call of [create_transaction]:
    [original_amount=payment_data.get('original_amount'),
     original_currency=payment_data.get('original_currency'),
     payment_details=payment_data]. *)
Definition txid_kwargs (d : recharge_data) : gmap string pyval :=
  <["original_amount" :=
      match original_amount d with Some x => PyDecimal x | None => PyNone end]>
  (<["original_currency" :=
       match original_currency d with Some x => PyStr x | None => PyNone end]>
  (<["payment_details" := as_dict d]> ∅)).

Inductive txid_reply :=
| AskForTxidAgain
| TxidUnexpectedError
| TransactionCreationError
| RechargeRequestReceived.

(** [RechargeManager.handle_txid]; a missing ['amount'] or
    ['payment_method'] key raises [KeyError]. *)
Definition handle_txid (s : db) (d : recharge_data) (user_id : Z)
    (tx_id : string) (now : string) : db * txid_reply :=
  if decide (tx_id = "") then (s, AskForTxidAgain)
  else
    match amount d, payment_method d with
    | Some a, Some pm =>
        let '(s1, success) :=
          Database.create_transaction s tx_id user_id a pm None None
            (txid_kwargs d) now in
        if success then (s1, RechargeRequestReceived)
        else (s1, TransactionCreationError)
    | _, _ => (s, TxidUnexpectedError)
    end.

Inductive payment_reply :=
| TransactionNotFound
| AlreadyProcessed
| ConfirmError
| PaymentConfirmed.

(** [RechargeManager.confirm_payment]. *)
Definition confirm_payment (s : db) (tx_id : string) (admin_id : Z)
    (now : string) : db * payment_reply :=
  match Database.get_transaction s tx_id with
  | None => (s, TransactionNotFound)
  | Some tx_details =>
      if decide (tx_status tx_details <> pending) then (s, AlreadyProcessed)
      else
        let '(s1, success) := Database.confirm_transaction s tx_id admin_id now in
        if success then (s1, PaymentConfirmed) else (s1, ConfirmError)
  end.

Inductive reject_reply :=
| RejectError
| PaymentRejected.

(** [RechargeManager.handle_reject_reason]; [tx_id] is
    [context.user_data.get('reject_tx_id')]. *)
Definition handle_reject_reason (s : db) (tx_id : option string)
    (admin_id : Z) (reason : string) (now : string) : db * reject_reply :=
  match tx_id with
  | None => (s, RejectError)
  | Some tx_id =>
      let '(s1, success) :=
        Database.reject_transaction s tx_id admin_id reason now in
      if success then (s1, PaymentRejected) else (s1, RejectError)
  end.

End RechargeManager.

(** ** [handlers.py]: the row of a user *)

Module Handlers.

(** The write of [start_after_subscription]:
    [INSERT OR REPLACE INTO users (user_id, username, first_name,
     joined_date, last_activity) VALUES (...)].  [REPLACE] deletes the row
    of the user, if there is one, and inserts the new one; the columns the
    statement does not name take their defaults, [balance] 0.0, [status]
    ['active'] and [updated_at] [CURRENT_TIMESTAMP].  The connection is
    opened without [PRAGMA foreign_keys], so no other table is touched. *)
Definition start_after_subscription (s : db) (user_id : Z) (now : string) : db :=
  set_users s
    (<[user_id := {| u_balance := 0; u_status := active;
                     u_updated_at := now |}]> (users s)).

End Handlers.

(** ** What the bot receives *)

(** The handlers that write the store, with the administrator actions as
    the calls of [Database] their handlers make. *)
Inductive bot_event :=
| EvStart (user_id : Z) (now : string)
| EvPurchase (uid : Z) (data : PurchaseManager.purchase_data)
    (game_id now : string)
| EvConfirmOrder (order_id admin_id : Z) (now : string)
| EvRejectOrder (order_id admin_id : Z) (now : string)
| EvTxid (d : RechargeManager.recharge_data) (user_id : Z) (tx_id now : string)
| EvConfirmPayment (tx_id : string) (admin_id : Z) (now : string)
| EvRejectReason (tx_id : option string) (admin_id : Z) (reason now : string)
| EvBan (user_id admin_id : Z) (now : string)
| EvUnban (user_id admin_id : Z) (now : string)
| EvModifyBalance (user_id amount admin_id : Z) (now : string)
| EvSweep (cutoff : string).

Definition run_event (s : db) (e : bot_event) : db :=
  match e with
  | EvStart u now => Handlers.start_after_subscription s u now
  | EvPurchase u data gid now =>
      (PurchaseManager._process_purchase s u data gid now).1
  | EvConfirmOrder oid adm now => (PurchaseManager.confirm_order s oid adm now).1
  | EvRejectOrder oid adm now => (PurchaseManager.reject_order s oid adm now).1
  | EvTxid d u tx now => (RechargeManager.handle_txid s d u tx now).1
  | EvConfirmPayment tx adm now =>
      (RechargeManager.confirm_payment s tx adm now).1
  | EvRejectReason tx adm reason now =>
      (RechargeManager.handle_reject_reason s tx adm reason now).1
  | EvBan u adm now => (Database.ban_user s u adm now).1
  | EvUnban u adm now => (Database.unban_user s u adm now).1
  | EvModifyBalance u a adm now => (Database.modify_user_balance s u a adm now).1
  | EvSweep cutoff => (Database.cleanup_expired_transactions s cutoff).1
  end.

Definition run_events (s : db) (es : list bot_event) : db :=
  fold_left run_event es s.

(** The funds of a user that are held by pending orders. *)
Definition reserved (s : db) (user_id : Z) : Z :=
  Database.sum_rows
    (fun o => if decide (o_user_id o = user_id /\ o_status o = pending)
              then o_price o else 0)
    (orders s).

(** ** Sequences of calls, audit replay, sample stores *)

(** The storage invariant [CHECK (balance >= 0)] of [users]. *)
Definition balances_nonneg (s : db) : Prop :=
  map_Forall (fun _ u => 0 <= u_balance u) (users s).

(** A call of a method of [Database] that writes the store. *)
Inductive db_call :=
| UpdateUserBalance (user_id amount : Z) (now : string)
| ModifyUserBalance (user_id amount admin_id : Z) (now : string)
| CreateOrder (user_id : Z) (ptype : product_type) (product_id game_id : string)
    (price : Z) (now : string)
| UpdateOrderStatus (order_id : Z) (status : string) (admin_id : Z) (now : string)
| RejectOrder (order_id admin_id : Z) (now : string)
| CreateTransaction (tx_id : string) (user_id amount : Z)
    (payment_method : string) (payment_subtype payment_number : option string)
    (kwargs : gmap string pyval) (now : string)
| ConfirmTransaction (tx_id : string) (admin_id : Z) (now : string)
| RejectTransaction (tx_id : string) (admin_id : Z) (reason now : string)
| CleanupExpiredTransactions (cutoff : string).

(** The store a call leaves. *)
Definition run_call (s : db) (c : db_call) : db :=
  match c with
  | UpdateUserBalance u a now => (Database.update_user_balance s u a now).1
  | ModifyUserBalance u a adm now => (Database.modify_user_balance s u a adm now).1
  | CreateOrder u pt pid gid price now =>
      (Database.create_order s u pt pid gid price now).1
  | UpdateOrderStatus oid st adm now =>
      (Database.update_order_status s oid st adm now).1
  | RejectOrder oid adm now => (Database.reject_order s oid adm now).1
  | CreateTransaction tx u a pm sub num kw now =>
      (Database.create_transaction s tx u a pm sub num kw now).1
  | ConfirmTransaction tx adm now => (Database.confirm_transaction s tx adm now).1
  | RejectTransaction tx adm reason now =>
      (Database.reject_transaction s tx adm reason now).1
  | CleanupExpiredTransactions cutoff =>
      (Database.cleanup_expired_transactions s cutoff).1
  end.

(** The store a sequence of calls leaves, first call first. *)
Definition run_calls (s : db) (cs : list db_call) : db :=
  fold_left run_call cs s.

(** Replaying [balance_history]: the sum of [change_amount] over the rows of
    one user, from 0. *)
Definition replay_history (s : db) (user_id : Z) : Z :=
  foldr (fun h acc => if decide (h_user_id h = user_id)
                      then h_change_amount h + acc else acc)
        0 (balance_history s).

(** The adjustments of [modify_user_balance] as the administrator enters
    them: user, amount, administrator, time. *)
Definition adjustment_calls (adjustments : list (Z * Z * Z * string))
  : list db_call :=
  map (fun a => ModifyUserBalance a.1.1.1 a.1.1.2 a.1.2 a.2) adjustments.

(** The amounts of the adjustments of one user, each in absolute value,
    added up. *)
Definition adjusted_total (user_id : Z)
    (adjustments : list (Z * Z * Z * string)) : Z :=
  foldr (fun a acc => if decide (a.1.1.1 = user_id)
                      then Z.abs a.1.1.2 + acc else acc)
        0 adjustments.

(** A user row with a balance. *)
Definition user_with (b : Z) : user_row :=
  {| u_balance := b; u_status := active; u_updated_at := "2024-05-01 09:00:00" |}.

(** A deposit request of user 7 for 50000. *)
Definition sample_tx (st : row_status) : tx_row :=
  {| tx_user_id := 7; tx_amount := 50000; tx_type_ := deposit;
     tx_payment_method := "syriatel"; tx_payment_details := PyDict [];
     tx_payment_subtype := None; tx_payment_number := None;
     tx_original_amount := Real 50000; tx_original_currency := Text "SYP";
     tx_exchange_rate := Real 1; tx_created_at := "2024-05-01 10:00:00";
     tx_completed_at := None; tx_status := st;
     tx_reject_reason := None; tx_admin_id := None |}.

(** User 7 with balance 0 and the request [TX1] in the given status. *)
Definition sample_db (st : row_status) : db :=
  {| users := {[ 7 := user_with 0 ]}; balance_history := [];
     orders := ∅; orders_seq := 0;
     transactions := {[ "TX1" := sample_tx st ]}; admin_logs := [] |}.

(** The same store after an administrator confirmed [TX1]. *)
Definition sample_db_confirmed : db :=
  (Database.confirm_transaction (sample_db pending) "TX1" 1
     "2024-05-01 10:30:00").1.

(** An order of user 7 for 9500. *)
Definition sample_order (st : row_status) : order_row :=
  {| o_user_id := 7; o_product_type := game; o_product_id := "pubg";
     o_amount := "ID123"; o_price := 9500;
     o_created_at := "2024-05-01 10:00:00"; o_completed_at := None;
     o_status := st |}.

(** User 7 with balance 500 and order 1 in the given status. *)
Definition sample_shop (st : row_status) : db :=
  {| users := {[ 7 := user_with 500 ]}; balance_history := [];
     orders := {[ 1 := sample_order st ]}; orders_seq := 1;
     transactions := ∅; admin_logs := [] |}.

(** * Properties *)

(** ** Unfolding the methods *)

Ltac unfold_sql :=
  unfold atomically, sql_bind, sql_ret, sql_raise, select_balance,
    set_balance, add_to_balance, add_to_balance_if_covered, insert_history,
    insert_admin_log, Database.insert_order, Database.set_order_status,
    Database.select_order, Database.insert_transaction,
    Database.select_transaction, Database.close_transaction,
    Database.delete_stale in *.

Ltac unfold_db :=
  unfold Database.update_user_balance, Database.modify_user_balance,
    Database.create_order, Database.update_order_status,
    Database.reject_order, Database.create_transaction,
    Database.confirm_transaction, Database.reject_transaction,
    Database.cleanup_expired_transactions, Database.get_user_balance,
    Database.get_order, Database.get_transaction in *;
  unfold_sql.

(** Case analysis on every test a method makes. *)
Ltac split_tests :=
  repeat (case_match || case_decide); simplify_eq/=; try lia.

(** ** The ledger *)

Section Ledger.

Implicit Types (s : db) (user_id amount : Z) (now : string).

(** What [update_user_balance] does, by cases on the row and the test of
    its [WHERE] clause. *)
Lemma update_user_balance_cases s user_id amount now :
  Database.update_user_balance s user_id amount now =
  match users s !! user_id with
  | Some u =>
      if decide (0 <= u_balance u + amount) then
        (set_users s
           (<[user_id := with_balance u (u_balance u + amount) now]> (users s)),
         true)
      else (s, false)
  | None => (s, false)
  end.
Proof. unfold_db. split_tests; reflexivity. Qed.

Lemma get_user_balance_insert s user_id (u : user_row) other :
  Database.get_user_balance (set_users s (<[user_id := u]> (users s))) other =
  if decide (user_id = other) then u_balance u
  else Database.get_user_balance s other.
Proof.
  unfold Database.get_user_balance; simpl.
  rewrite lookup_insert. by case_decide.
Qed.

Lemma balances_nonneg_insert s user_id (u : user_row) :
  balances_nonneg s -> 0 <= u_balance u ->
  balances_nonneg (set_users s (<[user_id := u]> (users s))).
Proof. intros Hs Hu. by apply map_Forall_insert_2. Qed.

Lemma get_user_balance_nonneg s user_id :
  balances_nonneg s -> 0 <= Database.get_user_balance s user_id.
Proof.
  intros Hs. unfold Database.get_user_balance.
  destruct (users s !! user_id) as [u|] eqn:Hu; [|done].
  exact (Hs _ _ Hu).
Qed.

(** Every method keeps the storage invariant. *)
Lemma run_call_nonneg s (c : db_call) :
  balances_nonneg s -> balances_nonneg (run_call s c).
Proof.
  intros Hs. destruct c; simpl; unfold_db; split_tests;
    try exact Hs;
    try (apply (balances_nonneg_insert _ _ _ Hs); simpl; lia).
Qed.

End Ledger.

(** C5.  Starting from a store whose balances are all non-negative (the
    [CHECK (balance >= 0)] of the table), after every finite sequence of
    calls of the methods of [Database] -- credits and debits by
    [update_user_balance], adjustments by [modify_user_balance], and the
    credits of the life-cycle methods -- every balance is non-negative, and
    so is the balance [get_user_balance] reports for any user. *)
Theorem balance_never_negative (s : db) (cs : list db_call) (user_id : Z) :
  balances_nonneg s ->
  balances_nonneg (run_calls s cs) /\
  0 <= Database.get_user_balance (run_calls s cs) user_id.
Proof.
  intros Hs.
  assert (Hall : balances_nonneg (run_calls s cs)).
  { revert s Hs. induction cs as [|c cs IH]; intros s Hs; simpl.
    - exact Hs.
    - apply IH. by apply run_call_nonneg. }
  split; [exact Hall | by apply get_user_balance_nonneg].
Qed.

Lemma balance_never_negative_witness :
  balances_nonneg (sample_shop pending) /\
  0 <= Database.get_user_balance
         (run_calls (sample_shop pending)
            [ModifyUserBalance 7 100 1 "2024-05-01 11:00:00";
             UpdateUserBalance 7 (-150) "2024-05-01 11:05:00";
             UpdateUserBalance 7 (-600) "2024-05-01 11:06:00";
             ModifyUserBalance 7 (-1000) 1 "2024-05-01 11:07:00";
             RejectOrder 1 1 "2024-05-01 11:08:00"]) 7.
Proof.
  assert (H0 : balances_nonneg (sample_shop pending)).
  { apply map_Forall_singleton. simpl. lia. }
  split; [exact H0|].
  apply (balance_never_negative (sample_shop pending)). exact H0.
Defined.

(** ** The arithmetic of the [REAL] column *)

(** A whole number of at most 2^53 in absolute value is a double. *)
Lemma real64_round_exact (x : Z) :
  Z.abs x <= 2 ^ 53 -> Real64.round x = x.
Proof.
  intros Hx. unfold Real64.round. case_decide; [done|].
  change (2 ^ 53) with 9007199254740992 in *.
  assert (Hcases : x = 9007199254740992 \/ x = - 9007199254740992) by lia.
  destruct Hcases as [-> | ->]; vm_compute; reflexivity.
Qed.

(** Rounding keeps a negative number negative. *)
Lemma real64_round_negative (x : Z) : x < 0 -> Real64.round x < 0.
Proof.
  intros Hx. unfold Real64.round. case_decide; [done|].
  set (m := Z.abs x) in *.
  assert (Hm : 2 ^ 53 <= m) by lia.
  assert (Hlog : 53 <= Z.log2 m).
  { rewrite <- (Z.log2_pow2 53) by lia. by apply Z.log2_le_mono. }
  set (e := Z.log2 m - 52).
  assert (Hpow : 0 < 2 ^ e) by (apply Z.pow_pos_nonneg; lia).
  assert (Hle : 2 ^ e <= m).
  { transitivity (2 ^ Z.log2 m).
    - apply Z.pow_le_mono_r; lia.
    - apply Z.log2_spec. change (2 ^ 53) with 9007199254740992 in Hm. lia. }
  assert (Hq : 0 < m / 2 ^ e) by (apply Z.div_str_pos; lia).
  rewrite Z.sgn_neg by done.
  repeat case_match; nia.
Qed.

(** What [Real64.update_user_balance] does, by cases on the row and the
    test of its [WHERE] clause. *)
Lemma real64_update_user_balance_cases (s : db) (user_id amount : Z)
    (now : string) :
  Real64.update_user_balance s user_id amount now =
  match users s !! user_id with
  | Some u =>
      let new_balance := Real64.add (u_balance u) (Real64.of_text amount) in
      if decide (0 <= new_balance) then
        (set_users s
           (<[user_id := with_balance u new_balance now]> (users s)), true)
      else (s, false)
  | None => (s, false)
  end.
Proof.
  unfold Real64.update_user_balance, Real64.add_to_balance_if_covered,
    atomically, sql_bind, sql_ret.
  destruct (users s !! user_id) as [u|]; [|done].
  simpl. by case_decide.
Qed.

(** Within 2^53 the sum of the [REAL] column is the exact sum: there
    [Database.update_user_balance] is [Real64.update_user_balance]. *)
Lemma update_user_balance_exact_in_range (s : db) (user_id amount : Z)
    (now : string) :
  Z.abs amount <= 2 ^ 53 ->
  (forall u : user_row,
      users s !! user_id = Some u -> Z.abs (u_balance u + amount) <= 2 ^ 53) ->
  Real64.update_user_balance s user_id amount now
    = Database.update_user_balance s user_id amount now.
Proof.
  intros Ha Hsum.
  rewrite real64_update_user_balance_cases, update_user_balance_cases.
  destruct (users s !! user_id) as [u|] eqn:Hu; [|done].
  simpl. unfold Real64.add, Real64.of_text.
  rewrite (real64_round_exact amount) by done.
  rewrite (real64_round_exact (u_balance u + amount)) by (by apply Hsum).
  done.
Qed.

(** C9, as stated, fails in two ways.  The sum [balance + ?] is a sum of
    doubles: with a balance of 2^53 a debit of 2^53 + 1, which is more than
    the balance, passes the test of the [WHERE] clause, returns [True] and
    leaves balance 0.  And [update_user_balance] creates no row: for user 8,
    who has none and whose balance [get_user_balance] reports as 0, the
    credit of 100 returns [False] and the balance stays 0, not 100. *)
Lemma debit_beyond_balance_can_pass :
  let rich := set_users empty_db {[ 7 := user_with 9007199254740992 ]} in
  let r := Real64.update_user_balance rich 7 (- 9007199254740993)
             "2024-05-01 11:00:00" in
  let r1 := Real64.update_user_balance (sample_db pending) 8 100
              "2024-05-01 11:00:00" in
  Database.get_user_balance rich 7 = 9007199254740992 /\
  r.2 = true /\
  Database.get_user_balance r.1 7 = 0 /\
  Database.get_user_balance (sample_db pending) 8 = 0 /\
  r1.2 = false /\
  Database.get_user_balance r1.1 8 = 0.
Proof. vm_compute. repeat split; reflexivity. Qed.

(** C9, amended.  A debit is [update_user_balance] with the negated amount,
    the sum taken as the [REAL] column takes it.  When the balance [b] is
    below an amount of at most 2^53, a number the column holds exactly, the
    call returns [False] and the store, hence the balance, is what it was.
    For a user who has a row with balance 0, a credit of 100 succeeds and
    gives balance 100; a debit of 150 then returns [False] and leaves the
    balance at 100. *)
Theorem debit_beyond_balance_fails :
  (forall (s : db) (user_id b amount : Z) (now : string),
      Database.get_user_balance s user_id = b -> b < amount ->
      Z.abs amount <= 2 ^ 53 ->
      Real64.update_user_balance s user_id (- amount) now = (s, false)) /\
  (forall (s : db) (user_id : Z) (u : user_row) (now1 now2 : string),
      users s !! user_id = Some u -> u_balance u = 0 ->
      let r1 := Real64.update_user_balance s user_id 100 now1 in
      r1.2 = true /\
      Database.get_user_balance r1.1 user_id = 100 /\
      Real64.update_user_balance r1.1 user_id (- 150) now2 = (r1.1, false)).
Proof.
  split.
  - intros s user_id b amount now Hb Hlt Hexact.
    rewrite real64_update_user_balance_cases.
    unfold Database.get_user_balance in Hb.
    destruct (users s !! user_id) as [u|]; [|done].
    simpl. unfold Real64.add, Real64.of_text.
    rewrite (real64_round_exact (- amount)) by lia.
    case_decide as Hok; [|done].
    pose proof (real64_round_negative (u_balance u + - amount)). lia.
  - intros s user_id u now1 now2 Hu H0 r1. subst r1.
    rewrite real64_update_user_balance_cases, Hu. simpl. rewrite H0.
    change (Real64.add 0 (Real64.of_text 100)) with 100.
    case_decide; [|lia]. simpl.
    split; [done|].
    split.
    + rewrite get_user_balance_insert. case_decide; [simpl; lia | done].
    + rewrite real64_update_user_balance_cases. simpl.
      rewrite lookup_insert_eq. simpl.
      reflexivity.
Qed.

Lemma debit_beyond_balance_fails_witness :
  Real64.update_user_balance (sample_shop pending) 7 (- 600)
    "2024-05-01 11:00:00" = (sample_shop pending, false) /\
  let r1 := Real64.update_user_balance (sample_db pending) 7 100
              "2024-05-01 11:00:00" in
  r1.2 = true /\
  Database.get_user_balance r1.1 7 = 100 /\
  Real64.update_user_balance r1.1 7 (- 150) "2024-05-01 11:05:00"
    = (r1.1, false).
Proof.
  destruct debit_beyond_balance_fails as [Hdebit Hscenario].
  split.
  - apply (Hdebit (sample_shop pending) 7 500 600); [reflexivity | lia |].
    vm_compute. discriminate.
  - apply (Hscenario (sample_db pending) 7 (user_with 0)); reflexivity.
Defined.

(** An adjustment by [modify_user_balance] that would make the balance
    negative, or that names an unknown user, returns [False] and changes
    nothing. *)
Lemma modify_user_balance_refused (s : db) (user_id amount admin_id : Z)
    (now : string) :
  Database.get_user_balance s user_id + amount < 0 \/ users s !! user_id = None ->
  Database.modify_user_balance s user_id amount admin_id now = (s, false).
Proof.
  unfold Database.get_user_balance. intros H.
  unfold_db. destruct (users s !! user_id) as [u|] eqn:Hu; simpl.
  - destruct H as [H|H]; [|done]. case_decide; [done | lia].
  - done.
Qed.

(** An accepted adjustment changes the balance by [amount] and appends one
    history row with that [change_amount]: on this path the replay of the
    history keeps step with the balance. *)
Lemma modify_user_balance_replay (s : db) (user_id amount admin_id : Z)
    (now : string) (other : Z) :
  replay_history s other = Database.get_user_balance s other ->
  let s' := (Database.modify_user_balance s user_id amount admin_id now).1 in
  replay_history s' other = Database.get_user_balance s' other.
Proof.
  intros Heq s'. subst s'. unfold_db.
  destruct (users s !! user_id) as [u|] eqn:Hu; simpl; [|exact Heq].
  case_decide; simpl; [exact Heq|].
  rewrite Hu. case_decide; [|lia]. simpl.
  unfold replay_history, Database.get_user_balance in *. simpl.
  rewrite foldr_app. simpl. rewrite lookup_insert.
  assert (Hshift : forall l k,
    foldr (fun h acc => if decide (h_user_id h = other)
                        then h_change_amount h + acc else acc) k l =
    foldr (fun h acc => if decide (h_user_id h = other)
                        then h_change_amount h + acc else acc) 0 l + k).
  { induction l as [|h l IH]; intros k; simpl; [lia|].
    case_decide; rewrite IH; lia. }
  rewrite Hshift, Heq.
  repeat case_decide; simplify_eq/=; try rewrite Hu; simpl; try lia; congruence.
Qed.

(** ** Top-up requests *)

Section Transactions.

Implicit Types (s : db) (tx_id now reason : string) (admin_id : Z)
  (t : tx_row) (u : user_row).

(** [confirm_transaction] on an existing row whose user has an account:
    whatever the status of the row, the row is completed, the amount is
    added to the balance and one log row is appended. *)
Lemma confirm_transaction_effect s tx_id admin_id now t u :
  transactions s !! tx_id = Some t ->
  users s !! tx_user_id t = Some u ->
  0 <= u_balance u + tx_amount t ->
  Database.confirm_transaction s tx_id admin_id now =
  (add_admin_log
     (set_users
        (set_transactions s
           (<[tx_id := with_tx_closed t completed None admin_id now]>
              (transactions s)))
        (<[tx_user_id t := with_balance u (u_balance u + tx_amount t) now]>
           (users s)))
     (confirm_log tx_id admin_id (tx_user_id t)), true).
Proof.
  intros Ht Hu Hok. unfold_db. rewrite Ht. simpl. rewrite Ht. simpl.
  rewrite Hu. case_decide; [reflexivity | lia].
Qed.

(** The same for [reject_transaction]: the row is rejected with the
    reason, and the amount is added to the balance. *)
Lemma reject_transaction_effect s tx_id admin_id reason now t u :
  transactions s !! tx_id = Some t ->
  users s !! tx_user_id t = Some u ->
  0 <= u_balance u + tx_amount t ->
  Database.reject_transaction s tx_id admin_id reason now =
  (add_admin_log
     (set_users
        (set_transactions s
           (<[tx_id := with_tx_closed t rejected (Some reason) admin_id now]>
              (transactions s)))
        (<[tx_user_id t := with_balance u (u_balance u + tx_amount t) now]>
           (users s)))
     (reject_log tx_id admin_id reason (tx_user_id t)), true).
Proof.
  intros Ht Hu Hok. unfold_db. rewrite Ht. simpl. rewrite Ht. simpl.
  rewrite Hu. case_decide; [reflexivity | lia].
Qed.

End Transactions.

(** C1.  [reject_transaction] on the pending request [TX1] (user 7, amount
    50000, balance 0) returns [True], marks the row rejected with the reason
    and appends the log row -- and it adds the 50000 to the balance of user
    7, which the claim says stays unchanged. *)
Theorem reject_transaction_credits_the_deposit :
  let s := sample_db pending in
  let r := Database.reject_transaction s "TX1" 1 "no proof"
             "2024-05-01 11:00:00" in
  Database.get_user_balance s 7 = 0 /\
  r.2 = true /\
  tx_status <$> Database.get_transaction r.1 "TX1" = Some rejected /\
  tx_reject_reason <$> Database.get_transaction r.1 "TX1"
    = Some (Some "no proof") /\
  admin_logs r.1 =
    [{| l_admin_id := 1; l_action := "reject_transaction";
        l_details := "Rejected transaction TX1 with reason: no proof";
        l_target_user_id := Some 7 |}] /\
  Database.get_user_balance r.1 7 = 50000.
Proof. vm_compute. repeat split; reflexivity. Qed.

(** C6.  [confirm_transaction] on the pending request [TX1] raises the
    balance of user 7 from 0 to 50000 and appends nothing to
    [balance_history]: the replay of the history gives 0, not the balance. *)
Theorem confirm_transaction_leaves_no_history :
  let s := sample_db pending in
  let r := Database.confirm_transaction s "TX1" 1 "2024-05-01 11:00:00" in
  replay_history s 7 = Database.get_user_balance s 7 /\
  r.2 = true /\
  Database.get_user_balance r.1 7 = 50000 /\
  balance_history r.1 = [] /\
  replay_history r.1 7 = 0.
Proof. vm_compute. repeat split; reflexivity. Qed.

(** C8.  The request [TX1] was confirmed: it is completed and user 7 holds
    the 50000.  [confirm_payment] refuses to touch it.
    [handle_reject_reason], which makes no status check, runs
    [reject_transaction] on it: the reply is that of a successful rejection,
    the status goes from completed to rejected and the amount is added to
    the balance once more. *)
Theorem completed_transaction_can_be_rejected :
  let s := sample_db_confirmed in
  let r := RechargeManager.handle_reject_reason s (Some "TX1") 1 "late"
             "2024-05-01 12:00:00" in
  tx_status <$> Database.get_transaction s "TX1" = Some completed /\
  Database.get_user_balance s 7 = 50000 /\
  RechargeManager.confirm_payment s "TX1" 1 "2024-05-01 12:00:00"
    = (s, RechargeManager.AlreadyProcessed) /\
  r.2 = RechargeManager.PaymentRejected /\
  tx_status <$> Database.get_transaction r.1 "TX1" = Some rejected /\
  Database.get_user_balance r.1 7 = 100000.
Proof. vm_compute. repeat split; reflexivity. Qed.

(** The pending test of [confirm_payment] is made by the handler, on the row
    [get_transaction] read before [confirm_transaction] opens its own
    transaction: a row that is not pending is left alone. *)
Lemma confirm_payment_guard (s : db) (tx_id : string) (admin_id : Z)
    (now : string) (t : tx_row) :
  transactions s !! tx_id = Some t -> tx_status t <> pending ->
  RechargeManager.confirm_payment s tx_id admin_id now
    = (s, RechargeManager.AlreadyProcessed).
Proof.
  intros Ht Hst. unfold RechargeManager.confirm_payment, Database.get_transaction.
  rewrite Ht. by case_decide.
Qed.




(** ** Orders *)

(** [Database.reject_order] on an existing order whose user has an account:
    whatever the status of the row, the row is rejected, the price is added
    to the balance and one log row is appended. *)
Lemma reject_order_effect (s : db) (order_id admin_id : Z) (now : string)
    (o : order_row) (u : user_row) :
  orders s !! order_id = Some o ->
  users s !! o_user_id o = Some u ->
  0 <= u_balance u + o_price o ->
  Database.reject_order s order_id admin_id now =
  (add_admin_log
     (set_users
        (set_orders s (<[order_id := with_order_status o rejected now]> (orders s))
           (orders_seq s))
        (<[o_user_id o := with_balance u (u_balance u + o_price o) now]>
           (users s)))
     (reject_order_log order_id admin_id (o_user_id o)), true).
Proof.
  intros Ho Hu Hok. unfold_db. rewrite Ho. simpl. rewrite Ho.
  change (status_of_string "rejected") with (Some rejected). simpl.
  rewrite Hu. case_decide; [reflexivity | lia].
Qed.

(** The pending test of the handler [reject_order]: a row that is not
    pending is left alone. *)
Lemma reject_order_guard (s : db) (order_id admin_id : Z) (now : string)
    (o : order_row) :
  orders s !! order_id = Some o -> o_status o <> pending ->
  PurchaseManager.reject_order s order_id admin_id now
    = (s, PurchaseManager.OrderAlreadyProcessed).
Proof.
  intros Ho Hst. unfold PurchaseManager.reject_order, Database.get_order.
  rewrite Ho. by case_decide.
Qed.

(** [Database.reject_order] on an existing order, by cases on the row of
    its user and on the [CHECK] of the sum. *)
Lemma reject_order_cases (s : db) (order_id admin_id : Z) (now : string)
    (o : order_row) :
  orders s !! order_id = Some o ->
  Database.reject_order s order_id admin_id now =
  let s1 := set_orders s
              (<[order_id := with_order_status o rejected now]> (orders s))
              (orders_seq s) in
  match users s !! o_user_id o with
  | Some u =>
      if decide (0 <= u_balance u + o_price o) then
        (add_admin_log
           (set_users s1
              (<[o_user_id o := with_balance u (u_balance u + o_price o) now]>
                 (users s)))
           (reject_order_log order_id admin_id (o_user_id o)), true)
      else (s, false)
  | None =>
      (add_admin_log s1 (reject_order_log order_id admin_id (o_user_id o)),
       true)
  end.
Proof.
  intros Ho. unfold_db. rewrite Ho. simpl. rewrite Ho.
  change (status_of_string "rejected") with (Some rejected). simpl.
  destruct (users s !! o_user_id o) as [u|]; [|reflexivity].
  by case_decide.
Qed.




(** No key of [orders] exceeds [max_order_id]. *)
Lemma max_order_id_bound (os : gmap Z order_row) (k : Z) (o : order_row) :
  os !! k = Some o -> k <= Database.max_order_id os.
Proof.
  intros Hk. apply elem_of_map_to_list in Hk.
  unfold Database.max_order_id.
  assert (Hin : k ∈ (map_to_list os).*1).
  { apply list_elem_of_fmap. by exists (k, o). }
  clear Hk. revert Hin. generalize ((map_to_list os).*1). intros l Hin.
  induction Hin as [x l | x y l Hx IH]; simpl; lia.
Qed.

(** The key [AUTOINCREMENT] takes is positive and not in use. *)
Lemma next_order_id_fresh (s : db) :
  0 < Database.next_order_id s /\ orders s !! Database.next_order_id s = None.
Proof.
  unfold Database.next_order_id. split.
  - assert (0 <= Database.max_order_id (orders s)); [|lia].
    unfold Database.max_order_id.
    induction ((map_to_list (orders s)).*1) as [|x l IH]; simpl; lia.
  - destruct (orders s !! _) as [o|] eqn:Ho; [|done].
    apply max_order_id_bound in Ho. lia.
Qed.

Lemma create_order_effect (s : db) (user_id : Z) (ptype : product_type)
    (product_id game_id : string) (price : Z) (now : string) :
  Database.create_order s user_id ptype product_id game_id price now =
  (set_orders s
     (<[Database.next_order_id s :=
          new_order user_id ptype product_id game_id price now]> (orders s))
     (Database.next_order_id s),
   Some (Database.next_order_id s)).
Proof. reflexivity. Qed.


(** [update_user_balance] writes [users] only, and a call that returns
    [False] writes nothing. *)
Lemma update_user_balance_frame (s : db) (user_id amount : Z) (now : string) :
  let r := Database.update_user_balance s user_id amount now in
  orders r.1 = orders s /\ orders_seq r.1 = orders_seq s /\
  transactions r.1 = transactions s /\
  balance_history r.1 = balance_history s /\
  admin_logs r.1 = admin_logs s /\
  (r.2 = false -> r.1 = s).
Proof.
  intros r. subst r. rewrite update_user_balance_cases.
  destruct (users s !! user_id) as [u|]; [|done].
  by case_decide.
Qed.

(** Past the balance test, [_process_purchase] is [create_order] followed by
    [update_user_balance] on the store that holds the new order; the reply
    follows the value the debit returns. *)
Lemma process_purchase_insert_then_debit (s : db) (uid : Z)
    (data : PurchaseManager.purchase_data) (game_id now : string) :
  PurchaseManager.pd_price data <= Database.get_user_balance s uid ->
  let placed := (Database.create_order s uid
                   (PurchaseManager.pd_product_type data)
                   (PurchaseManager.pd_product_id data) game_id
                   (PurchaseManager.pd_price data) now).1 in
  let paid := Database.update_user_balance placed uid
                (- PurchaseManager.pd_price data) now in
  PurchaseManager._process_purchase s uid data game_id now =
  (paid.1, if paid.2
           then PurchaseManager.OrderReceived (Database.next_order_id s)
           else PurchaseManager.BalanceDeductionError).
Proof.
  intros Hle placed paid. subst paid placed.
  unfold PurchaseManager._process_purchase.
  case_decide; [lia|].
  rewrite create_order_effect.
  destruct (next_order_id_fresh s) as [Hpos _].
  case_decide; [lia|]. simpl.
  by destruct (Database.update_user_balance _ _ _ _) as [s2 []].
Qed.



(** ** The sweep *)

(** The rows deleted and the rows kept add up to the table. *)
Lemma stale_split_size (cutoff : string) (ts : gmap string tx_row) :
  (size (filter (fun kt => Database.is_stale cutoff kt.2 = true) ts) +
   size (filter (fun kt => Database.is_stale cutoff kt.2 = false) ts))%nat
  = size ts.
Proof.
  induction ts as [|k t ts Hk Hfold IH] using map_first_key_ind.
  - by rewrite !map_filter_empty, map_size_empty.
  - rewrite map_size_insert_None by done.
    destruct (Database.is_stale cutoff t) eqn:Hst.
    + rewrite map_filter_insert_True by done.
      rewrite map_filter_insert_False by (simpl; congruence).
      rewrite (delete_id ts k) by done.
      rewrite map_size_insert_None; [lia|].
      by rewrite map_lookup_filter_None; left.
    + rewrite map_filter_insert_False by (simpl; congruence).
      rewrite (delete_id ts k) by done.
      rewrite map_filter_insert_True by done.
      rewrite map_size_insert_None; [lia|].
      by rewrite map_lookup_filter_None; left.
Qed.


(** The sweep, row by row: a row is deleted when it is pending and its
    [created_at] text is below the text of the cut-off, and kept as it is
    otherwise; the count and the other tables. *)
Lemma cleanup_effect (s : db) (cutoff : string) :
  let r := Database.cleanup_expired_transactions s cutoff in
  (forall tx_id : string,
      Database.get_transaction r.1 tx_id =
      match Database.get_transaction s tx_id with
      | Some t =>
          if bool_decide (tx_status t = pending)
             && String.ltb (tx_created_at t) cutoff
          then None else Some t
      | None => None
      end) /\
  (r.2 + size (transactions r.1))%nat = size (transactions s) /\
  users r.1 = users s /\
  balance_history r.1 = balance_history s /\
  orders r.1 = orders s /\
  admin_logs r.1 = admin_logs s.
Proof.
  intros r. subst r. unfold_db. simpl.
  split; [|split; [apply stale_split_size | done]].
  intros tx_id. fold (Database.is_stale cutoff).
  destruct (transactions s !! tx_id) as [t|] eqn:Ht.
  - unfold Database.is_stale.
    destruct (bool_decide (tx_status t = pending)
              && String.ltb (tx_created_at t) cutoff) eqn:Hst.
    + apply map_lookup_filter_None. right. intros t' Ht' Hkeep.
      unfold Database.is_stale in Hkeep. simpl in Hkeep.
      rewrite Ht in Ht'. injection Ht' as <-. congruence.
    + apply map_lookup_filter_Some. split; [done|]. exact Hst.
  - apply map_lookup_filter_None. by left.
Qed.

(** Two texts of the same length that differ are ordered by their own
    characters, whatever is appended to them: two stamps that start with
    different days compare as the days do. *)
Lemma compare_append_same_length (d1 d2 x y : string) (c : comparison) :
  String.length d1 = String.length d2 -> c <> Eq ->
  String.compare d1 d2 = c ->
  String.compare (d1 +:+ x) (d2 +:+ y) = c.
Proof.
  revert d2. induction d1 as [|a d1 IH]; intros [|b d2] Hlen Hc Hcmp;
    simpl in *; try congruence.
  destruct (Ascii.compare a b); [|done..].
  apply IH; [congruence | done | done].
Qed.



(** The comparison of the sweep is a comparison of texts, and
    [CURRENT_TIMESTAMP] writes a space where the ISO text of the cut-off has
    a [T]: a pending row created on the day of the cut-off compares below it
    whatever its time of day. *)
Example stale_by_text_order :
  Database.is_stale "2024-05-01T06:00:00.000000" (sample_tx pending) = true.
Proof. reflexivity. Qed.

(** ** Creating a top-up request *)

(** A successful [create_transaction] inserted the row it built from its
    arguments. *)
Lemma create_transaction_row (s s' : db) (tx_id : string) (user_id amount : Z)
    (pm : string) (sub num : option string) (kwargs : gmap string pyval)
    (now : string) :
  Database.create_transaction s tx_id user_id amount pm sub num kwargs now
    = (s', true) ->
  exists row : tx_row,
    Database.get_transaction s' tx_id = Some row /\
    tx_amount row = amount /\
    tx_status row = pending /\
    tx_exchange_rate row =
      Database.bind_str_real
        (Database.kwargs_get kwargs "exchange_rate" (PyInt 1)) /\
    Some (tx_original_currency row) =
      Database.bind_text
        (Database.kwargs_get kwargs "original_currency" (PyStr "SYP")) /\
    tx_original_amount row =
      Database.bind_str_real
        (Database.kwargs_get kwargs "original_amount" (PyDecimal amount)).
Proof.
  unfold_db. intros H.
  destruct (Database.json_serializable _); [|simpl in H; congruence].
  destruct (Database.bind_text _) as [oc|] eqn:Hoc; [|simpl in H; congruence].
  destruct (transactions s !! tx_id) eqn:Hold; simpl in H; [congruence|].
  injection H as <-. eexists. unfold Database.get_transaction. simpl.
  rewrite lookup_insert_eq. repeat split; simpl; done.
Qed.

(** [handle_txid] passes [payment_details=payment_data], and the dictionary
    holds the [Decimal] under ['amount']: [json.dumps] raises inside
    [create_transaction], which rolls back and returns [False].  The handler
    as written inserts no row. *)
Lemma handle_txid_inserts_nothing (s : db) (d : RechargeManager.recharge_data)
    (user_id : Z) (tx_id now : string) :
  (RechargeManager.handle_txid s d user_id tx_id now).1 = s /\
  (RechargeManager.handle_txid s d user_id tx_id now).2
    <> RechargeManager.RechargeRequestReceived.
Proof.
  unfold RechargeManager.handle_txid.
  case_decide; [done|].
  destruct (RechargeManager.amount d) as [a|] eqn:Ha; [|done].
  destruct (RechargeManager.payment_method d) as [pm|] eqn:Hpm; [|done].
  assert (Hjson : Database.json_serializable (RechargeManager.as_dict d) = false).
  { unfold RechargeManager.as_dict. rewrite Ha. simpl.
    rewrite !forallb_app. simpl. by rewrite ?andb_false_r. }
  assert (Hcreate :
    Database.create_transaction s tx_id user_id a pm None None
      (RechargeManager.txid_kwargs d) now = (s, false)).
  { unfold Database.create_transaction, atomically.
    replace (Database.kwargs_get (RechargeManager.txid_kwargs d)
               "payment_details" (PyDict []))
      with (RechargeManager.as_dict d).
    - by rewrite Hjson.
    - unfold Database.kwargs_get, RechargeManager.txid_kwargs.
      rewrite !lookup_insert_ne by done. by rewrite lookup_insert_eq. }
  by rewrite Hcreate.
Qed.

(** C10, as stated, fails: a call without [exchange_rate] and without
    [original_currency] that passes [original_amount=Decimal(5)] with amount
    10 stores rate 1 and currency ['SYP'], but the original amount 5, not the
    settlement amount. *)
Lemma original_amount_default_needs_its_own_key_absent :
  let kwargs : gmap string pyval := {[ "original_amount" := PyDecimal 5 ]} in
  let r := Database.create_transaction empty_db "TX9" 7 10 "syriatel" None None
             kwargs "2024-05-01 10:00:00" in
  kwargs !! "exchange_rate" = None /\
  kwargs !! "original_currency" = None /\
  r.2 = true /\
  tx_amount <$> Database.get_transaction r.1 "TX9" = Some 10 /\
  tx_exchange_rate <$> Database.get_transaction r.1 "TX9" = Some (Real 1) /\
  tx_original_currency <$> Database.get_transaction r.1 "TX9"
    = Some (Text "SYP") /\
  tx_original_amount <$> Database.get_transaction r.1 "TX9" = Some (Real 5).
Proof. vm_compute. repeat split; reflexivity. Qed.

(** C10, amended.  Each default of [create_transaction] applies when its
    own key is absent: a successful call without [exchange_rate] stores rate
    1, without [original_currency] currency ['SYP'], without
    [original_amount] the settlement amount as original amount.  The one
    call of the recharge flow, in [handle_txid], always passes
    [original_amount] and [original_currency] and never [exchange_rate]:
    the rate bound for it is the default 1, also when [handle_amount]
    computed the amount as the input times [USDT_RATE] or [USD_RATE].  That
    call, as written, returns [False] and stores no row. *)
Theorem create_transaction_defaults :
  (forall (s s' : db) (tx_id : string) (user_id amount : Z) (pm : string)
          (sub num : option string) (kwargs : gmap string pyval) (now : string),
      Database.create_transaction s tx_id user_id amount pm sub num kwargs now
        = (s', true) ->
      exists row : tx_row,
        Database.get_transaction s' tx_id = Some row /\
        tx_amount row = amount /\
        (kwargs !! "exchange_rate" = None -> tx_exchange_rate row = Real 1) /\
        (kwargs !! "original_currency" = None ->
           tx_original_currency row = Text "SYP") /\
        (kwargs !! "original_amount" = None ->
           tx_original_amount row = Real amount)) /\
  (forall d : RechargeManager.recharge_data,
      RechargeManager.txid_kwargs d !! "exchange_rate" = None /\
      Database.bind_str_real
        (Database.kwargs_get (RechargeManager.txid_kwargs d) "exchange_rate"
           (PyInt 1)) = Real 1 /\
      is_Some (RechargeManager.txid_kwargs d !! "original_amount") /\
      is_Some (RechargeManager.txid_kwargs d !! "original_currency")) /\
  (forall (s : db) (d : RechargeManager.recharge_data) (user_id : Z)
          (tx_id now : string),
      (RechargeManager.handle_txid s d user_id tx_id now).1 = s /\
      (RechargeManager.handle_txid s d user_id tx_id now).2
        <> RechargeManager.RechargeRequestReceived /\
      forall a : Z, RechargeManager.amount d = Some a ->
        forall pm : string,
          Database.create_transaction s tx_id user_id a pm None None
            (RechargeManager.txid_kwargs d) now = (s, false)) /\
  (forall (cfg : RechargeManager.config) (d : RechargeManager.recharge_data)
          (input : Z) (cur : string),
      0 < input ->
      RechargeManager.payment_method d = Some "crypto" ->
      RechargeManager.currency d = Some cur ->
      let d' := (RechargeManager.handle_amount cfg d input).1 in
      RechargeManager.amount d' =
        Some (input * (if decide (cur = "USDT")
                       then RechargeManager.USDT_RATE cfg
                       else RechargeManager.USD_RATE cfg)) /\
      RechargeManager.original_amount d' = Some input /\
      RechargeManager.txid_kwargs d' !! "exchange_rate" = None) /\
  (forall (cfg : RechargeManager.config) (d : RechargeManager.recharge_data)
          (input : Z),
      0 < input ->
      RechargeManager.payment_method d = Some "shamcash" ->
      RechargeManager.sham_type d = Some "usd" ->
      let d' := (RechargeManager.handle_amount cfg d input).1 in
      RechargeManager.amount d' = Some (input * RechargeManager.USD_RATE cfg) /\
      RechargeManager.original_amount d' = Some input /\
      RechargeManager.txid_kwargs d' !! "exchange_rate" = None).
Proof.
  assert (Hkw : forall d : RechargeManager.recharge_data,
             RechargeManager.txid_kwargs d !! "exchange_rate" = None).
  { intros d. unfold RechargeManager.txid_kwargs.
    rewrite !lookup_insert_ne by done. apply lookup_empty. }
  split; [|split; [|split; [|split]]].
  - intros s s' tx_id user_id amount pm sub num kwargs now Hc.
    destruct (create_transaction_row _ _ _ _ _ _ _ _ _ _ Hc)
      as (row & Hrow & Ha & _ & Hr & Hcur & Horig).
    exists row. unfold Database.kwargs_get in *.
    split; [exact Hrow|]. split; [exact Ha|].
    split; [intros Her; by rewrite Her in Hr|].
    split.
    + intros Hoc. rewrite Hoc in Hcur. simpl in Hcur. congruence.
    + intros Hoa. by rewrite Hoa in Horig.
  - intros d. split; [apply Hkw|]. split.
    + unfold Database.kwargs_get. by rewrite Hkw.
    + unfold RechargeManager.txid_kwargs. split.
      * by rewrite lookup_insert_eq.
      * rewrite lookup_insert_ne by done. by rewrite lookup_insert_eq.
  - intros s d user_id tx_id now.
    destruct (handle_txid_inserts_nothing s d user_id tx_id now) as [Hs Hreply].
    split; [exact Hs|]. split; [exact Hreply|].
    intros a Ha pm.
    assert (Hjson :
      Database.json_serializable (RechargeManager.as_dict d) = false).
    { unfold RechargeManager.as_dict. rewrite Ha. simpl.
      rewrite !forallb_app. simpl. by rewrite ?andb_false_r. }
    unfold Database.create_transaction, atomically.
    replace (Database.kwargs_get (RechargeManager.txid_kwargs d)
               "payment_details" (PyDict []))
      with (RechargeManager.as_dict d).
    + by rewrite Hjson.
    + unfold Database.kwargs_get, RechargeManager.txid_kwargs.
      rewrite !lookup_insert_ne by done. by rewrite lookup_insert_eq.
  - intros cfg d input cur Hpos Hpm Hcur d'.
    split; [|split; [|apply Hkw]];
      subst d'; unfold RechargeManager.handle_amount;
      (case_decide; [lia|]); (case_decide; [|done]); by rewrite Hcur.
  - intros cfg d input Hpos Hpm Hsham d'.
    split; [|split; [|apply Hkw]];
      subst d'; unfold RechargeManager.handle_amount;
      (case_decide; [lia|]); (case_decide; [congruence|]);
      (case_decide; [|done]); by case_decide.
Qed.

Lemma create_transaction_defaults_witness :
  let now := "2024-05-01 10:00:00" in
  let plain := (Database.create_transaction empty_db "TX9" 7 50000 "syriatel"
                  None None ∅ now).1 in
  let cfg := {| RechargeManager.USD_RATE := 10000;
                RechargeManager.USDT_RATE := 10000 |} in
  let draft (pm : string) (cur sham : option string) :=
    {| RechargeManager.payment_type := Some pm;
       RechargeManager.payment_method := Some pm;
       RechargeManager.wallet_details := None;
       RechargeManager.currency := cur;
       RechargeManager.sham_type := sham;
       RechargeManager.amount := None;
       RechargeManager.original_amount := None;
       RechargeManager.original_currency := None;
       RechargeManager.reject_tx_id := None |} in
  (exists row : tx_row,
      Database.get_transaction plain "TX9" = Some row /\
      tx_amount row = 50000 /\
      tx_exchange_rate row = Real 1 /\
      tx_original_currency row = Text "SYP" /\
      tx_original_amount row = Real 50000) /\
  RechargeManager.amount
    (RechargeManager.handle_amount cfg (draft "crypto" (Some "USDT") None) 5).1
    = Some (5 * 10000) /\
  RechargeManager.amount
    (RechargeManager.handle_amount cfg (draft "shamcash" None (Some "usd")) 5).1
    = Some (5 * 10000) /\
  Database.create_transaction empty_db "TX9" 7 50000 "crypto" None None
    (RechargeManager.txid_kwargs
       (RechargeManager.handle_amount cfg
          (draft "crypto" (Some "USDT") None) 5).1) now
    = (empty_db, false).
Proof.
  intros now plain cfg draft.
  destruct create_transaction_defaults
    as (Hall & _ & Hflow & Hcrypto & Hsham).
  split; [|split; [|split]].
  - destruct (Hall empty_db plain "TX9" 7 50000 "syriatel" None None ∅ now)
      as (row & Hrow & Ha & Hrate & Hcur & Horig); [reflexivity|].
    exists row.
    split; [exact Hrow|]. split; [exact Ha|].
    split; [by apply Hrate|]. split; [by apply Hcur | by apply Horig].
  - apply (Hcrypto cfg (draft "crypto" (Some "USDT") None) 5 "USDT");
      [lia | reflexivity | reflexivity].
  - apply (Hsham cfg (draft "shamcash" None (Some "usd")) 5);
      [lia | reflexivity | reflexivity].
  - destruct (Hflow empty_db
                (RechargeManager.handle_amount cfg
                   (draft "crypto" (Some "USDT") None) 5).1
                7 "TX9" now) as (_ & _ & Hcall).
    apply (Hcall 50000); reflexivity.
Defined.

(** ** Terminal states *)

(** [handle_reject_reason] reads no status: whatever the status of an
    existing request whose user has an account, the reply is that of a
    successful rejection and the row ends rejected. *)
Lemma handle_reject_reason_ignores_status (s : db) (tx_id reason now : string)
    (admin_id : Z) (t : tx_row) (u : user_row) :
  transactions s !! tx_id = Some t ->
  users s !! tx_user_id t = Some u ->
  0 <= u_balance u + tx_amount t ->
  let r := RechargeManager.handle_reject_reason s (Some tx_id) admin_id reason
             now in
  r.2 = RechargeManager.PaymentRejected /\
  tx_status <$> Database.get_transaction r.1 tx_id = Some rejected.
Proof.
  intros Ht Hu Hok r. subst r. unfold RechargeManager.handle_reject_reason.
  rewrite (reject_transaction_effect _ _ _ _ _ _ _ Ht Hu Hok). simpl.
  split; [done|]. unfold Database.get_transaction. simpl.
  by rewrite lookup_insert_eq.
Qed.

(** The order handlers test the status they read: an order that is not
    pending is left alone by [confirm_order] and by [reject_order]. *)
Lemma order_handlers_leave_closed_orders (s : db) (order_id admin_id : Z)
    (now : string) (o : order_row) :
  orders s !! order_id = Some o -> o_status o <> pending ->
  PurchaseManager.confirm_order s order_id admin_id now
    = (s, PurchaseManager.OrderAlreadyProcessed) /\
  PurchaseManager.reject_order s order_id admin_id now
    = (s, PurchaseManager.OrderAlreadyProcessed).
Proof.
  intros Ho Hst. split; [|by eapply reject_order_guard].
  unfold PurchaseManager.confirm_order, Database.get_order.
  rewrite Ho. by case_decide.
Qed.

(** The method [Database.update_order_status] makes no such test: called
    directly on the rejected order 1 it sets the status it is given. *)
Example update_order_status_has_no_guard :
  let r := Database.update_order_status (sample_shop rejected) 1 "completed" 1
             "2024-05-01 12:00:00" in
  r.2 = true /\ o_status <$> Database.get_order r.1 1 = Some completed.
Proof. vm_compute. split; reflexivity. Qed.

(** * Further properties of the code *)

Ltac unfold_admin :=
  unfold Database.ban_user, Database.unban_user, Database.set_user_status in *;
  unfold_db.

(** ** Banning *)

(** X1.  [ban_user] on a user without a row returns [False] and changes
    nothing; on a user with a row it returns [True], sets the status to
    banned and appends one log row.  In both cases every balance, and the
    tables of orders, requests and balance history, stay as they are. *)
Theorem ban_user_keeps_funds (s : db) (user_id admin_id : Z) (now : string) :
  let r := Database.ban_user s user_id admin_id now in
  (forall other : Z,
      Database.get_user_balance r.1 other = Database.get_user_balance s other) /\
  orders r.1 = orders s /\
  transactions r.1 = transactions s /\
  balance_history r.1 = balance_history s /\
  (users s !! user_id = None -> r = (s, false)) /\
  (forall u : user_row, users s !! user_id = Some u ->
     r.2 = true /\
     u_status <$> users r.1 !! user_id = Some banned /\
     admin_logs r.1 =
       (admin_logs s ++
          [{| l_admin_id := admin_id; l_action := "ban_user";
              l_details := "User " +:+ pretty user_id +:+ " was banned";
              l_target_user_id := Some user_id |}])%list).
Proof.
  intros r. subst r. unfold_admin.
  destruct (users s !! user_id) as [u|] eqn:Hu; simpl.
  - repeat split; try done.
    + intros other. rewrite lookup_insert. case_decide; [|done].
      subst other. by rewrite Hu.
    + by rewrite lookup_insert_eq.
  - repeat split; try done.
Qed.

Lemma ban_user_keeps_funds_witness :
  let r := Database.ban_user (sample_shop pending) 7 1 "2024-05-01 12:00:00" in
  Database.ban_user (sample_shop pending) 8 1 "2024-05-01 12:00:00"
    = (sample_shop pending, false) /\
  r.2 = true /\
  u_status <$> users r.1 !! 7 = Some banned /\
  Database.get_user_balance r.1 7 = 500.
Proof.
  destruct (ban_user_keeps_funds (sample_shop pending) 8 1
              "2024-05-01 12:00:00") as (_ & _ & _ & _ & Hnone & _).
  destruct (ban_user_keeps_funds (sample_shop pending) 7 1
              "2024-05-01 12:00:00") as (Hbal & _ & _ & _ & _ & Hsome).
  destruct (Hsome (user_with 500)) as (Hok & Hst & _); [reflexivity|].
  split; [apply Hnone; reflexivity|].
  split; [exact Hok|]. split; [exact Hst|].
  rewrite Hbal. reflexivity.
Defined.

(** The reply of [_process_purchase] is decided by the balance of the user
    and the next order key alone. *)
Lemma process_purchase_reply (s : db) (uid : Z)
    (data : PurchaseManager.purchase_data) (game_id now : string) :
  (PurchaseManager._process_purchase s uid data game_id now).2 =
  if decide (Database.get_user_balance s uid < PurchaseManager.pd_price data)
  then PurchaseManager.InsufficientBalance
  else match users s !! uid with
       | Some u => PurchaseManager.OrderReceived (Database.next_order_id s)
       | None => PurchaseManager.BalanceDeductionError
       end.
Proof.
  destruct (next_order_id_fresh s) as [Hpos _].
  unfold PurchaseManager._process_purchase.
  case_decide as Hlt; [done|].
  rewrite create_order_effect. case_decide; [lia|].
  rewrite update_user_balance_cases. simpl.
  unfold Database.get_user_balance in Hlt.
  destruct (users s !! uid) as [u|]; [|done].
  case_decide; [done | lia].
Qed.



(** X3.  [unban_user] sets the status to active whatever it was: after a
    ban and an unban the user is active with the balance untouched, also a
    user who was suspended before the ban. *)
Theorem unban_after_ban_is_active (s : db) (uid admin1 admin2 : Z)
    (now1 now2 : string) (u : user_row) :
  users s !! uid = Some u ->
  let r1 := Database.ban_user s uid admin1 now1 in
  let r2 := Database.unban_user r1.1 uid admin2 now2 in
  r1.2 = true /\ r2.2 = true /\
  users r2.1 !! uid =
    Some {| u_balance := u_balance u; u_status := active;
            u_updated_at := now2 |} /\
  length (admin_logs r2.1) = (length (admin_logs s) + 2)%nat.
Proof.
  intros Hu r1 r2. subst r1 r2. unfold_admin. rewrite Hu. simpl.
  rewrite lookup_insert_eq. simpl. rewrite lookup_insert_eq.
  repeat split; try done.
  rewrite !length_app. simpl. lia.
Qed.

Lemma unban_after_ban_is_active_witness :
  let s := set_users (sample_shop pending)
             {[ 7 := {| u_balance := 500; u_status := suspended;
                        u_updated_at := "2024-05-01 09:00:00" |} ]} in
  let r1 := Database.ban_user s 7 1 "2024-05-01 12:00:00" in
  let r2 := Database.unban_user r1.1 7 1 "2024-05-01 13:00:00" in
  r1.2 = true /\ r2.2 = true /\
  users r2.1 !! 7 =
    Some {| u_balance := 500; u_status := active;
            u_updated_at := "2024-05-01 13:00:00" |} /\
  length (admin_logs r2.1) = (length (admin_logs s) + 2)%nat.
Proof.
  intros s.
  apply (unban_after_ban_is_active s 7 1 1 "2024-05-01 12:00:00"
           "2024-05-01 13:00:00"
           {| u_balance := 500; u_status := suspended;
              u_updated_at := "2024-05-01 09:00:00" |}).
  reflexivity.
Defined.

(** ** The row of a user *)

(** X4.  The write of [start_after_subscription] replaces the row of the
    user: whatever the balance and the status were, afterwards the balance
    is 0 and the status active.  No other user and no other table is
    touched, so the orders and requests of the user remain. *)
Theorem start_resets_the_account (s : db) (user_id : Z) (now : string) :
  let s' := Handlers.start_after_subscription s user_id now in
  Database.get_user_balance s' user_id = 0 /\
  u_status <$> users s' !! user_id = Some active /\
  (forall other : Z, other <> user_id -> users s' !! other = users s !! other) /\
  orders s' = orders s /\
  transactions s' = transactions s /\
  balance_history s' = balance_history s /\
  admin_logs s' = admin_logs s.
Proof.
  intros s'. subst s'.
  unfold Handlers.start_after_subscription, Database.get_user_balance. simpl.
  rewrite lookup_insert_eq. repeat split; try done.
  intros other Hne. by rewrite lookup_insert_ne.
Qed.

(** ** What a sequence of events keeps *)

(** Every handler but the three that write [users] directly leaves the
    store that some calls of [Database], run one after the other, leave. *)
Lemma run_event_as_calls (s : db) (e : bot_event) :
  match e with
  | EvStart _ _ | EvBan _ _ _ | EvUnban _ _ _ => True
  | _ => exists cs : list db_call, run_event s e = run_calls s cs
  end.
Proof.
  destruct e; cbn [run_event]; try exact I.
  - unfold PurchaseManager._process_purchase.
    case_decide; [by exists []|].
    destruct (Database.create_order _ _ _ _ _ _ _) as [s1 oid] eqn:Hc.
    assert (Hs1 : s1 = run_call s
              (CreateOrder uid (PurchaseManager.pd_product_type data)
                 (PurchaseManager.pd_product_id data) game_id
                 (PurchaseManager.pd_price data) now)).
    { cbn [run_call]. by rewrite Hc. }
    destruct oid as [oid|]; [|eexists [_]; exact Hs1].
    case_decide; [eexists [_]; exact Hs1|].
    destruct (Database.update_user_balance _ _ _ _) as [s2 ok] eqn:Hu.
    exists [CreateOrder uid (PurchaseManager.pd_product_type data)
              (PurchaseManager.pd_product_id data) game_id
              (PurchaseManager.pd_price data) now;
            UpdateUserBalance uid (- PurchaseManager.pd_price data) now].
    cbn [run_calls fold_left run_call]. rewrite Hc. cbn [fst].
    rewrite Hu. by destruct ok.
  - unfold PurchaseManager.confirm_order.
    destruct (Database.get_order _ _); [|by exists []].
    case_decide; [by exists []|].
    destruct (Database.update_order_status _ _ _ _ _) as [s1 ok] eqn:Hu.
    exists [UpdateOrderStatus order_id "completed" admin_id now].
    cbn [run_calls fold_left run_call]. rewrite Hu. by destruct ok.
  - unfold PurchaseManager.reject_order.
    destruct (Database.get_order _ _); [|by exists []].
    case_decide; [by exists []|].
    destruct (Database.reject_order _ _ _ _) as [s1 ok] eqn:Hu.
    exists [RejectOrder order_id admin_id now].
    cbn [run_calls fold_left run_call]. rewrite Hu. by destruct ok.
  - unfold RechargeManager.handle_txid.
    case_decide; [by exists []|].
    destruct (RechargeManager.amount d) as [a|]; [|by exists []].
    destruct (RechargeManager.payment_method d) as [pm|]; [|by exists []].
    destruct (Database.create_transaction _ _ _ _ _ _ _ _ _) as [s1 ok] eqn:Hu.
    exists [CreateTransaction tx_id user_id a pm None None
              (RechargeManager.txid_kwargs d) now].
    cbn [run_calls fold_left run_call]. rewrite Hu. by destruct ok.
  - unfold RechargeManager.confirm_payment.
    destruct (Database.get_transaction _ _); [|by exists []].
    case_decide; [by exists []|].
    destruct (Database.confirm_transaction _ _ _ _) as [s1 ok] eqn:Hu.
    exists [ConfirmTransaction tx_id admin_id now].
    cbn [run_calls fold_left run_call]. rewrite Hu. by destruct ok.
  - unfold RechargeManager.handle_reject_reason.
    destruct tx_id as [tx_id|]; [|by exists []].
    destruct (Database.reject_transaction _ _ _ _ _) as [s1 ok] eqn:Hu.
    exists [RejectTransaction tx_id admin_id reason now].
    cbn [run_calls fold_left run_call]. rewrite Hu. by destruct ok.
  - by exists [ModifyUserBalance user_id amount admin_id now].
  - by exists [CleanupExpiredTransactions cutoff].
Qed.

(** A property of the store that every call of [Database] and the three
    direct writes keep is kept by every sequence of events. *)
Lemma run_events_keep (P : db -> Prop) :
  (forall s c, P s -> P (run_call s c)) ->
  (forall s u now, P s -> P (Handlers.start_after_subscription s u now)) ->
  (forall s u adm now, P s -> P (Database.ban_user s u adm now).1) ->
  (forall s u adm now, P s -> P (Database.unban_user s u adm now).1) ->
  forall (es : list bot_event) (s : db), P s -> P (run_events s es).
Proof.
  intros Hcall Hstart Hban Hunban es.
  assert (Hcalls : forall cs s, P s -> P (run_calls s cs)).
  { induction cs as [|c cs IH]; intros s Hs; simpl; [done|].
    apply IH. by apply Hcall. }
  induction es as [|e es IH]; intros s Hs; simpl; [done|].
  apply IH. pose proof (run_event_as_calls s e) as He.
  destruct e; try (cbn [run_event]; auto; fail);
    destruct He as [cs ->]; by apply Hcalls.
Qed.

(** A call of [Database] only appends to the two logs. *)
Lemma run_call_appends (s : db) (c : db_call) :
  balance_history s `prefix_of` balance_history (run_call s c) /\
  admin_logs s `prefix_of` admin_logs (run_call s c).
Proof.
  destruct c; simpl; unfold_db; split_tests;
    split; try reflexivity; try (by apply prefix_app_r).
Qed.

Ltac unfold_handlers :=
  unfold PurchaseManager._process_purchase, PurchaseManager.confirm_order,
    PurchaseManager.reject_order, RechargeManager.confirm_payment,
    RechargeManager.handle_reject_reason,
    Handlers.start_after_subscription in *.

(** An event leaves a closed order as it is. *)
Lemma run_event_keeps_closed_order (s : db) (e : bot_event) (oid : Z)
    (o : order_row) :
  orders s !! oid = Some o -> o_status o <> pending ->
  orders (run_event s e) !! oid = Some o.
Proof.
  intros Ho Hst.
  destruct (next_order_id_fresh s) as [_ Hfresh].
  destruct e; cbn [run_event].
  - exact Ho.
  - assert (Hins : <[Database.next_order_id s :=
                       new_order uid (PurchaseManager.pd_product_type data)
                         (PurchaseManager.pd_product_id data) game_id
                         (PurchaseManager.pd_price data) now]> (orders s)
                   !! oid = Some o).
    { rewrite lookup_insert_ne; [exact Ho | congruence]. }
    unfold_handlers. case_decide; [exact Ho|].
    rewrite create_order_effect. case_decide; [exact Hins|].
    rewrite update_user_balance_cases. simpl.
    destruct (users s !! uid); [case_decide|]; exact Hins.
  - unfold_handlers. unfold_db.
    destruct (orders s !! order_id) as [o'|] eqn:Ho'; [|exact Ho].
    case_decide; [exact Ho|]. simpl.
    rewrite lookup_insert_ne; [exact Ho | congruence].
  - unfold_handlers. unfold_db.
    destruct (orders s !! order_id) as [o'|] eqn:Ho'; [|exact Ho].
    case_decide; [exact Ho|]. simpl.
    assert (Hne : order_id <> oid) by congruence.
    rewrite Ho'. simpl.
    destruct (users s !! o_user_id o'); [case_decide|]; simpl;
      first [ exact Ho | rewrite lookup_insert_ne; [exact Ho | exact Hne] ].
  - by rewrite (proj1 (handle_txid_inserts_nothing s d user_id tx_id now)).
  - unfold_handlers. unfold_db. split_tests; exact Ho.
  - unfold_handlers. unfold_db. split_tests; exact Ho.
  - unfold_admin. split_tests; exact Ho.
  - unfold_admin. split_tests; exact Ho.
  - unfold_db. split_tests; exact Ho.
  - exact Ho.
Qed.

(** X5.  Through the handlers a closed order is final: an order that is
    completed, rejected or expired keeps its whole row, status included,
    under every sequence of purchases, order confirmations and rejections,
    top-up events, bans, balance edits, sweeps and restarts. *)
Theorem closed_order_is_final (s : db) (es : list bot_event) (oid : Z)
    (o : order_row) :
  orders s !! oid = Some o -> o_status o <> pending ->
  orders (run_events s es) !! oid = Some o.
Proof.
  intros Ho Hst. revert s Ho.
  induction es as [|e es IH]; intros s Ho; simpl; [exact Ho|].
  apply IH. by apply run_event_keeps_closed_order.
Qed.

Lemma closed_order_is_final_witness :
  orders
    (run_events (sample_shop rejected)
       [EvConfirmOrder 1 1 "2024-05-01 12:00:00";
        EvRejectOrder 1 1 "2024-05-01 12:05:00";
        EvPurchase 7 {| PurchaseManager.pd_product_type := game;
                        PurchaseManager.pd_product_id := "pubg";
                        PurchaseManager.pd_price := 100 |}
          "ID7" "2024-05-01 12:10:00";
        EvStart 7 "2024-05-01 12:20:00"]) !! 1
  = Some (sample_order rejected).
Proof.
  apply (closed_order_is_final (sample_shop rejected)); [reflexivity|].
  simpl. discriminate.
Defined.

(** X6.  The storage invariant holds through the handlers too: from a store
    with no negative balance, no sequence of events -- restarts, bans and
    unbans included -- leads to a negative balance. *)
Theorem events_keep_balances_nonneg (s : db) (es : list bot_event) :
  balances_nonneg s -> balances_nonneg (run_events s es).
Proof.
  apply (run_events_keep balances_nonneg).
  - intros s0 c. apply run_call_nonneg.
  - intros s0 u now Hs. apply balances_nonneg_insert; [exact Hs | simpl; lia].
  - intros s0 u adm now Hs. unfold_admin.
    destruct (users s0 !! u) as [row|] eqn:Hu; simpl; [|exact Hs].
    apply map_Forall_insert_2; [simpl; exact (Hs _ _ Hu) | exact Hs].
  - intros s0 u adm now Hs. unfold_admin.
    destruct (users s0 !! u) as [row|] eqn:Hu; simpl; [|exact Hs].
    apply map_Forall_insert_2; [simpl; exact (Hs _ _ Hu) | exact Hs].
Qed.

Lemma events_keep_balances_nonneg_witness :
  balances_nonneg
    (run_events (sample_db pending)
       [EvConfirmPayment "TX1" 1 "2024-05-01 12:00:00";
        EvPurchase 7 {| PurchaseManager.pd_product_type := game;
                        PurchaseManager.pd_product_id := "pubg";
                        PurchaseManager.pd_price := 60000 |}
          "ID7" "2024-05-01 12:10:00";
        EvModifyBalance 7 (- 70000) 1 "2024-05-01 12:15:00";
        EvBan 7 1 "2024-05-01 12:20:00";
        EvStart 7 "2024-05-01 12:30:00"]).
Proof.
  apply events_keep_balances_nonneg.
  apply map_Forall_singleton. simpl. lia.
Defined.

(** X7.  [balance_history] and [admin_logs] are append-only: under every
    sequence of events the rows present before are still there, in place,
    at the head of each log. *)
Theorem logs_are_append_only (s : db) (es : list bot_event) :
  balance_history s `prefix_of` balance_history (run_events s es) /\
  admin_logs s `prefix_of` admin_logs (run_events s es).
Proof.
  apply (run_events_keep
           (fun s' => balance_history s `prefix_of` balance_history s' /\
                      admin_logs s `prefix_of` admin_logs s')).
  - intros s0 c [Hh Hl]. destruct (run_call_appends s0 c) as [Hh' Hl'].
    split; etrans; eauto.
  - intros s0 u now Hs. exact Hs.
  - intros s0 u adm now [Hh Hl]. unfold_admin. split_tests;
      split; try done; etrans; [exact Hl | by apply prefix_app_r].
  - intros s0 u adm now [Hh Hl]. unfold_admin. split_tests;
      split; try done; etrans; [exact Hl | by apply prefix_app_r].
  - done.
Qed.

(** ** Orders, composed *)

(** The store a successful purchase leaves. *)
Lemma process_purchase_success (s : db) (uid : Z)
    (data : PurchaseManager.purchase_data) (game_id now : string)
    (u : user_row) :
  users s !! uid = Some u -> PurchaseManager.pd_price data <= u_balance u ->
  PurchaseManager._process_purchase s uid data game_id now =
  (set_users
     (set_orders s
        (<[Database.next_order_id s :=
             new_order uid (PurchaseManager.pd_product_type data)
               (PurchaseManager.pd_product_id data) game_id
               (PurchaseManager.pd_price data) now]> (orders s))
        (Database.next_order_id s))
     (<[uid := with_balance u (u_balance u + - PurchaseManager.pd_price data)
                 now]> (users s)),
   PurchaseManager.OrderReceived (Database.next_order_id s)).
Proof.
  intros Hu Hle. destruct (next_order_id_fresh s) as [Hpos _].
  unfold PurchaseManager._process_purchase, Database.get_user_balance.
  rewrite Hu. case_decide; [lia|].
  rewrite create_order_effect. case_decide; [lia|].
  rewrite update_user_balance_cases. simpl. rewrite Hu.
  case_decide; [done | lia].
Qed.

(** The store the handler [reject_order] leaves on a pending order whose
    user has an account. *)
Lemma reject_order_handler_effect (s : db) (order_id admin_id : Z)
    (now : string) (o : order_row) (u : user_row) :
  orders s !! order_id = Some o -> o_status o = pending ->
  users s !! o_user_id o = Some u -> 0 <= u_balance u + o_price o ->
  PurchaseManager.reject_order s order_id admin_id now =
  (add_admin_log
     (set_users
        (set_orders s
           (<[order_id := with_order_status o rejected now]> (orders s))
           (orders_seq s))
        (<[o_user_id o := with_balance u (u_balance u + o_price o) now]>
           (users s)))
     (reject_order_log order_id admin_id (o_user_id o)),
   PurchaseManager.OrderWrittenThenUnexpectedError).
Proof.
  intros Ho Hst Hu Hok.
  unfold PurchaseManager.reject_order, Database.get_order.
  rewrite Ho. case_decide; [congruence|].
  by rewrite (reject_order_effect _ _ _ _ _ _ Ho Hu Hok).
Qed.



(** [confirm_order] by cases on the row it reads. *)
Lemma confirm_order_cases (s : db) (order_id admin_id : Z) (now : string) :
  PurchaseManager.confirm_order s order_id admin_id now =
  match orders s !! order_id with
  | None => (s, PurchaseManager.OrderNotFound)
  | Some o =>
      if decide (o_status o = pending) then
        (add_admin_log
           (set_orders s
              (<[order_id := with_order_status o completed now]> (orders s))
              (orders_seq s))
           {| l_admin_id := admin_id; l_action := "update_order_status";
              l_details := "Updated order " +:+ pretty order_id +:+
                           " to status " +:+ "completed";
              l_target_user_id := None |},
         PurchaseManager.OrderWrittenThenUnexpectedError)
      else (s, PurchaseManager.OrderAlreadyProcessed)
  end.
Proof.
  unfold PurchaseManager.confirm_order, Database.get_order.
  destruct (orders s !! order_id) as [o|] eqn:Ho; [|done].
  repeat case_decide; try done.
  unfold_db. rewrite Ho. reflexivity.
Qed.

(** X10.  [confirm_order] has no ledger effect: whatever the order, it
    leaves every user row, the balance history and the requests as they
    are.  On a pending order it marks the order completed and keeps its
    price and owner -- and then fails on the notice to the buyer, so that
    the message of the administrator ends with the unexpected-error text
    although the order is completed. *)
Theorem confirm_order_has_no_ledger_effect (s : db) (order_id admin_id : Z)
    (now : string) :
  let r := PurchaseManager.confirm_order s order_id admin_id now in
  users r.1 = users s /\
  balance_history r.1 = balance_history s /\
  transactions r.1 = transactions s /\
  (forall o : order_row,
      orders s !! order_id = Some o -> o_status o = pending ->
      r.2 = PurchaseManager.OrderWrittenThenUnexpectedError /\
      Database.get_order r.1 order_id
        = Some (with_order_status o completed now)).
Proof.
  intros r. subst r. rewrite confirm_order_cases.
  destruct (orders s !! order_id) as [o|] eqn:Ho; [|by repeat split].
  case_decide as Hst; simpl.
  - repeat split; try done. simplify_eq.
    unfold Database.get_order. simpl. by rewrite lookup_insert_eq.
  - repeat split; try done; simplify_eq.
Qed.

Lemma confirm_order_has_no_ledger_effect_witness :
  let r := PurchaseManager.confirm_order (sample_shop pending) 1 1
             "2024-05-01 12:00:00" in
  r.2 = PurchaseManager.OrderWrittenThenUnexpectedError /\
  Database.get_order r.1 1
    = Some (with_order_status (sample_order pending) completed
              "2024-05-01 12:00:00").
Proof.
  destruct (confirm_order_has_no_ledger_effect (sample_shop pending) 1 1
              "2024-05-01 12:00:00") as (_ & _ & _ & H).
  apply H; reflexivity.
Defined.

(** X11.  [create_order] always succeeds and never overwrites: the key it
    returns is positive, larger than every key in the table and than the
    sequence counter, the row under it is the new pending order, every
    order present before is unchanged, and no balance changes. *)
Theorem create_order_takes_a_fresh_key (s : db) (user_id : Z)
    (ptype : product_type) (product_id game_id : string) (price : Z)
    (now : string) :
  let r := Database.create_order s user_id ptype product_id game_id price now in
  exists oid : Z,
    r.2 = Some oid /\ 0 < oid /\ orders_seq s < oid /\
    orders_seq r.1 = oid /\
    (forall (k : Z) (o : order_row), orders s !! k = Some o ->
        k < oid /\ orders r.1 !! k = Some o) /\
    orders r.1 !! oid
      = Some (new_order user_id ptype product_id game_id price now) /\
    users r.1 = users s.
Proof.
  intros r. subst r. rewrite create_order_effect.
  exists (Database.next_order_id s).
  destruct (next_order_id_fresh s) as [Hpos Hfresh].
  assert (Hseq : orders_seq s < Database.next_order_id s)
    by (unfold Database.next_order_id; lia).
  cbn [fst snd orders orders_seq users set_orders].
  split; [done|]. split; [done|]. split; [done|]. split; [done|].
  split.
  - intros k o Hk. pose proof (max_order_id_bound _ _ _ Hk) as Hb.
    split; [unfold Database.next_order_id; lia|].
    rewrite lookup_insert_ne; [done|].
    intros Heq. rewrite Heq in Hfresh. congruence.
  - split; [apply lookup_insert_eq | done].
Qed.

(** ** Requests: keys, sweep, sums *)

(** X12.  The key [tx_id] is unique: [create_transaction] with a key that
    is in use returns [False] and changes nothing.  A call that returns
    [True] had a free key, and it touches neither another request nor any
    balance or order. *)
Theorem create_transaction_refuses_duplicates :
  (forall (s : db) (tx_id : string) (user_id amount : Z) (pm : string)
          (sub num : option string) (kwargs : gmap string pyval)
          (now : string) (t : tx_row),
      transactions s !! tx_id = Some t ->
      Database.create_transaction s tx_id user_id amount pm sub num kwargs now
        = (s, false)) /\
  (forall (s s' : db) (tx_id : string) (user_id amount : Z) (pm : string)
          (sub num : option string) (kwargs : gmap string pyval)
          (now : string),
      Database.create_transaction s tx_id user_id amount pm sub num kwargs now
        = (s', true) ->
      transactions s !! tx_id = None /\
      users s' = users s /\ orders s' = orders s /\
      balance_history s' = balance_history s /\
      forall other : string, other <> tx_id ->
        transactions s' !! other = transactions s !! other).
Proof.
  split.
  - intros s tx_id user_id amount pm sub num kwargs now t Ht.
    unfold Database.create_transaction, atomically, sql_bind, sql_raise,
      Database.insert_transaction.
    destruct (Database.json_serializable _); [|done].
    destruct (Database.bind_text _); [|done].
    by rewrite Ht.
  - intros s s' tx_id user_id amount pm sub num kwargs now Hc.
    unfold_db.
    destruct (Database.json_serializable _); [|simpl in Hc; congruence].
    destruct (Database.bind_text _); [|simpl in Hc; congruence].
    destruct (transactions s !! tx_id) eqn:Hold; simpl in Hc; [congruence|].
    injection Hc as <-. simpl. repeat split; try done.
    intros other Hne. by rewrite lookup_insert_ne.
Qed.

Lemma create_transaction_refuses_duplicates_witness :
  let r := Database.create_transaction empty_db "TX9" 7 50000 "syriatel"
             None None ∅ "2024-05-01 10:00:00" in
  Database.create_transaction (sample_db pending) "TX1" 8 10 "mtn" None None
    ∅ "2024-05-01 10:30:00" = (sample_db pending, false) /\
  transactions empty_db !! "TX9" = None /\
  users r.1 = users empty_db.
Proof.
  intros r.
  destruct create_transaction_refuses_duplicates as [Hdup Hnew].
  split.
  - apply (Hdup (sample_db pending) "TX1" 8 10 "mtn" None None ∅
             "2024-05-01 10:30:00" (sample_tx pending)).
    reflexivity.
  - destruct (Hnew empty_db r.1 "TX9" 7 50000 "syriatel" None None ∅
                "2024-05-01 10:00:00") as (Hfree & Husers & _).
    + reflexivity.
    + split; [exact Hfree | exact Husers].
Defined.

(** X13.  The sweep is idempotent: a second sweep with the same cut-off
    deletes nothing, returns 0 and leaves the store of the first. *)
Theorem cleanup_twice_is_cleanup_once (s : db) (cutoff : string) :
  let r1 := Database.cleanup_expired_transactions s cutoff in
  Database.cleanup_expired_transactions r1.1 cutoff = (r1.1, 0%nat).
Proof.
  intros r1. subst r1. unfold_db. simpl.
  set (kept := filter (fun kt => Database.is_stale cutoff kt.2 = false)
                 (transactions s)).
  assert (Hkept : filter (fun kt => Database.is_stale cutoff kt.2 = false) kept
                  = kept).
  { apply map_filter_id. intros k t Hk.
    by apply map_lookup_filter_Some in Hk as [_ Hk]. }
  assert (Hnone : filter (fun kt => Database.is_stale cutoff kt.2 = true) kept
                  = ∅).
  { apply map_empty. intros k. apply map_lookup_filter_None.
    right. intros t Hk Hst.
    apply map_lookup_filter_Some in Hk as [_ Hk]. simpl in *. congruence. }
  rewrite Hkept, Hnone. by rewrite map_size_empty.
Qed.

(** The order of texts puts a space before [T] after a common prefix. *)
Lemma ltb_space_before_T (day time1 time2 : string) :
  String.ltb (day +:+ " " +:+ time1) (day +:+ "T" +:+ time2) = true.
Proof.
  unfold String.ltb.
  induction day as [|c day IH]; simpl; [reflexivity|].
  replace (Ascii.compare c c) with Eq; [exact IH|].
  unfold Ascii.compare. by rewrite N.compare_refl.
Qed.

(** X14.  The sweep compares the [CURRENT_TIMESTAMP] text of [created_at]
    (day, space, time) with the ISO text of the cut-off (day, [T], time):
    a pending request created on the calendar day of the cut-off is deleted
    whatever the two times of day are, also when it was created after the
    cut-off. *)
Theorem same_day_request_is_swept (s : db) (tx_id : string) (t : tx_row)
    (day time1 time2 : string) :
  transactions s !! tx_id = Some t ->
  tx_status t = pending ->
  tx_created_at t = day +:+ " " +:+ time1 ->
  let r := Database.cleanup_expired_transactions s (day +:+ "T" +:+ time2) in
  Database.get_transaction r.1 tx_id = None /\ (0 < r.2)%nat.
Proof.
  intros Ht Hst Hcreated r. subst r. unfold_db. simpl.
  assert (Hstale : Database.is_stale (day +:+ "T" +:+ time2) t = true).
  { unfold Database.is_stale. rewrite Hcreated, ltb_space_before_T.
    by rewrite bool_decide_eq_true_2. }
  split.
  - apply map_lookup_filter_None. right. intros t' Ht' Hkeep.
    simpl in Hkeep. congruence.
  - assert (Hin : filter (fun kt => Database.is_stale
                            (day +:+ "T" +:+ time2) kt.2 = true)
                    (transactions s) !! tx_id = Some t).
    { by apply map_lookup_filter_Some. }
    destruct (size _) eqn:Hsize; [|lia].
    apply map_size_empty_inv in Hsize. rewrite Hsize in Hin.
    by rewrite lookup_empty in Hin.
Qed.

Lemma same_day_request_is_swept_witness :
  let r := Database.cleanup_expired_transactions (sample_db pending)
             ("2024-05-01" +:+ "T" +:+ "06:00:00.000000") in
  Database.get_transaction r.1 "TX1" = None /\ (0 < r.2)%nat.
Proof.
  apply (same_day_request_is_swept (sample_db pending) "TX1"
           (sample_tx pending) "2024-05-01" "10:00:00" "06:00:00.000000");
    reflexivity.
Defined.

(** ** Sums over a table *)

Section SumRows.

Context {K : Type} `{Countable K} {A : Type}.
Implicit Types (f : A -> Z) (m : gmap K A).

Lemma sum_rows_empty f : Database.sum_rows f (∅ : gmap K A) = 0.
Proof. unfold Database.sum_rows. apply map_fold_empty. Qed.

Lemma sum_rows_insert_new f m (k : K) (a : A) :
  m !! k = None -> Database.sum_rows f (<[k := a]> m) = f a + Database.sum_rows f m.
Proof.
  intros Hk. unfold Database.sum_rows.
  apply (map_fold_insert_L (fun _ a acc => f a + acc)); [|exact Hk].
  intros. lia.
Qed.

Lemma sum_rows_lookup f m (k : K) (a : A) :
  m !! k = Some a ->
  Database.sum_rows f m = f a + Database.sum_rows f (delete k m).
Proof.
  intros Hk. unfold Database.sum_rows.
  apply (map_fold_delete_L (fun _ a acc => f a + acc)); [|exact Hk].
  intros. lia.
Qed.

(** Replacing the row under a key changes the sum by the difference. *)
Lemma sum_rows_update f m (k : K) (a a' : A) :
  m !! k = Some a ->
  Database.sum_rows f (<[k := a']> m) = Database.sum_rows f m - f a + f a'.
Proof.
  intros Hk. rewrite (sum_rows_lookup f m k a Hk).
  rewrite <- (insert_delete_eq m k a').
  rewrite sum_rows_insert_new by apply lookup_delete_eq. lia.
Qed.

(** [SUM(f) ... WHERE q] is [SUM(CASE WHEN q THEN f ELSE 0 END)]. *)
Lemma sum_rows_filter f (Q : A -> Prop) {Hdec : forall a, Decision (Q a)} m :
  Database.sum_rows f (filter (fun ka => Q ka.2) m) =
  Database.sum_rows (fun a => if decide (Q a) then f a else 0) m.
Proof.
  induction m as [|k a m Hk IH] using map_ind.
  - by rewrite map_filter_empty, !sum_rows_empty.
  - rewrite sum_rows_insert_new by done.
    destruct (decide (Q a)) as [Hq|Hq].
    + rewrite map_filter_insert_True by done.
      rewrite sum_rows_insert_new, IH; [done|].
      apply map_lookup_filter_None. by left.
    + rewrite map_filter_insert_False by done.
      rewrite (delete_id m k) by done. rewrite IH. lia.
Qed.

(** Dropping rows that count 0 does not change the sum. *)
Lemma sum_rows_filter_zero f (P : K * A -> Prop) `{!forall x, Decision (P x)} m :
  (forall k a, m !! k = Some a -> ~ P (k, a) -> f a = 0) ->
  Database.sum_rows f (filter P m) = Database.sum_rows f m.
Proof.
  induction m as [|k a m Hk IH] using map_ind; intros Hzero.
  - by rewrite map_filter_empty.
  - assert (IH' : Database.sum_rows f (filter P m) = Database.sum_rows f m).
    { apply IH. intros k' a' Hk' Hn. apply (Hzero k' a'); [|done].
      rewrite lookup_insert_ne; [done|]. intros ->. congruence. }
    rewrite sum_rows_insert_new by done.
    destruct (decide (P (k, a))) as [Hp|Hp].
    + rewrite map_filter_insert_True by done.
      rewrite sum_rows_insert_new, IH'; [done|].
      apply map_lookup_filter_None. by left.
    + rewrite map_filter_insert_False by done.
      rewrite (delete_id m k) by done. rewrite IH'.
      rewrite (Hzero k a); [lia | apply lookup_insert_eq | done].
Qed.

End SumRows.

(** The volume as one sum with a [CASE]. *)
Lemma volume_as_case (s : db) :
  Database.get_total_transaction_volume s =
  Database.sum_rows
    (fun t => if decide (tx_status t = completed) then tx_amount t else 0)
    (transactions s).
Proof.
  unfold Database.get_total_transaction_volume.
  apply (sum_rows_filter tx_amount (fun t => tx_status t = completed)
           (Hdec := fun t => row_status_eq_dec (tx_status t) completed)).
Qed.



(** The store the handler [confirm_payment] leaves on a pending request
    whose user has an account. *)
Lemma confirm_payment_effect (s : db) (tx_id : string) (admin_id : Z)
    (now : string) (t : tx_row) (u : user_row) :
  transactions s !! tx_id = Some t -> tx_status t = pending ->
  users s !! tx_user_id t = Some u -> 0 <= u_balance u + tx_amount t ->
  RechargeManager.confirm_payment s tx_id admin_id now =
  (add_admin_log
     (set_users
        (set_transactions s
           (<[tx_id := with_tx_closed t completed None admin_id now]>
              (transactions s)))
        (<[tx_user_id t := with_balance u (u_balance u + tx_amount t) now]>
           (users s)))
     (confirm_log tx_id admin_id (tx_user_id t)),
   RechargeManager.PaymentConfirmed).
Proof.
  intros Ht Hst Hu Hok.
  unfold RechargeManager.confirm_payment, Database.get_transaction.
  rewrite Ht. case_decide; [congruence|].
  by rewrite (confirm_transaction_effect _ _ _ _ _ _ Ht Hu Hok).
Qed.



(** ** Funds held by pending orders *)

(** X17.  Money moves between the balance and the pending orders without
    loss, for amounts the [REAL] column adds exactly (prices from 0 up,
    balances of at most 2^53, where the sum of doubles is the exact sum).
    A purchase moves the price from the balance to the funds held by the
    pending orders of the user; the rejection of a pending order moves the
    price back; its confirmation releases the held price and leaves the
    balance alone. *)
Theorem funds_are_conserved :
  (forall (s : db) (uid : Z) (data : PurchaseManager.purchase_data)
          (game_id now : string) (u : user_row),
      users s !! uid = Some u ->
      0 <= PurchaseManager.pd_price data ->
      PurchaseManager.pd_price data <= u_balance u ->
      u_balance u <= 2 ^ 53 ->
      let s' := (PurchaseManager._process_purchase s uid data game_id now).1 in
      reserved s' uid = reserved s uid + PurchaseManager.pd_price data /\
      Database.get_user_balance s' uid + reserved s' uid
        = Database.get_user_balance s uid + reserved s uid /\
      Real64.add (u_balance u)
        (Real64.of_text (- PurchaseManager.pd_price data))
        = u_balance u - PurchaseManager.pd_price data) /\
  (forall (s : db) (order_id admin_id : Z) (now : string) (o : order_row)
          (u : user_row),
      orders s !! order_id = Some o -> o_status o = pending ->
      users s !! o_user_id o = Some u ->
      0 <= u_balance u -> 0 <= o_price o ->
      u_balance u + o_price o <= 2 ^ 53 ->
      let s' := (PurchaseManager.reject_order s order_id admin_id now).1 in
      reserved s' (o_user_id o) = reserved s (o_user_id o) - o_price o /\
      Database.get_user_balance s' (o_user_id o) + reserved s' (o_user_id o)
        = Database.get_user_balance s (o_user_id o) + reserved s (o_user_id o) /\
      Real64.add (u_balance u) (Real64.of_text (o_price o))
        = u_balance u + o_price o) /\
  (forall (s : db) (order_id admin_id : Z) (now : string) (o : order_row),
      orders s !! order_id = Some o -> o_status o = pending ->
      let s' := (PurchaseManager.confirm_order s order_id admin_id now).1 in
      reserved s' (o_user_id o) = reserved s (o_user_id o) - o_price o /\
      Database.get_user_balance s' (o_user_id o)
        = Database.get_user_balance s (o_user_id o)).
Proof.
  split; [|split].
  - intros s uid data game_id now u Hu Hpos Hle Hmax s'. subst s'.
    assert (Hreal :
      Real64.add (u_balance u)
        (Real64.of_text (- PurchaseManager.pd_price data))
      = u_balance u - PurchaseManager.pd_price data).
    { unfold Real64.add, Real64.of_text.
      rewrite (real64_round_exact (- PurchaseManager.pd_price data)) by lia.
      rewrite real64_round_exact by lia. lia. }
    rewrite (process_purchase_success _ _ _ _ _ _ Hu Hle).
    destruct (next_order_id_fresh s) as [_ Hfresh].
    assert (Hres : reserved
              (set_users
                 (set_orders s
                    (<[Database.next_order_id s :=
                         new_order uid (PurchaseManager.pd_product_type data)
                           (PurchaseManager.pd_product_id data) game_id
                           (PurchaseManager.pd_price data) now]> (orders s))
                    (Database.next_order_id s))
                 (<[uid := with_balance u
                             (u_balance u + - PurchaseManager.pd_price data)
                             now]> (users s))) uid
            = reserved s uid + PurchaseManager.pd_price data).
    { unfold reserved. simpl. rewrite sum_rows_insert_new by done. simpl.
      case_decide; [lia | naive_solver]. }
    cbn [fst]. split; [exact Hres|]. split; [|exact Hreal]. rewrite Hres.
    unfold Database.get_user_balance. simpl.
    rewrite lookup_insert_eq, Hu. simpl. lia.
  - intros s order_id admin_id now o u Ho Hst Hu Hbal Hprice Hmax s'. subst s'.
    assert (Hok : 0 <= u_balance u + o_price o) by lia.
    assert (Hreal :
      Real64.add (u_balance u) (Real64.of_text (o_price o))
      = u_balance u + o_price o).
    { unfold Real64.add, Real64.of_text.
      rewrite (real64_round_exact (o_price o)) by lia.
      by rewrite real64_round_exact by lia. }
    rewrite (reject_order_handler_effect _ _ _ _ _ _ Ho Hst Hu Hok).
    cbn [fst].
    assert (Hres : forall s1 l,
              orders s1 = <[order_id := with_order_status o rejected now]>
                            (orders s) ->
              reserved (add_admin_log s1 l) (o_user_id o)
              = reserved s (o_user_id o) - o_price o).
    { intros s1 l Hs1. unfold reserved. simpl. rewrite Hs1.
      rewrite (sum_rows_update _ _ _ o _ Ho). simpl.
      repeat destruct (decide _); try lia;
      simpl in *; intuition (congruence || lia). }
    rewrite Hres by done. split; [done|]. split; [|exact Hreal].
    unfold Database.get_user_balance. simpl.
    rewrite lookup_insert_eq, Hu. simpl. lia.
  - intros s order_id admin_id now o Ho Hst s'. subst s'.
    rewrite confirm_order_cases, Ho. case_decide; [|done]. cbn [fst].
    split; [|done].
    unfold reserved. simpl. rewrite (sum_rows_update _ _ _ o _ Ho). simpl.
    repeat destruct (decide _); try lia;
      simpl in *; intuition (congruence || lia).
Qed.

Lemma funds_are_conserved_witness :
  let data := {| PurchaseManager.pd_product_type := game;
                 PurchaseManager.pd_product_id := "pubg";
                 PurchaseManager.pd_price := 400 |} in
  let bought := (PurchaseManager._process_purchase (sample_shop completed) 7
                   data "ID7" "2024-05-01 12:00:00").1 in
  let rejected_ := (PurchaseManager.reject_order (sample_shop pending) 1 1
                      "2024-05-01 12:00:00").1 in
  let confirmed := (PurchaseManager.confirm_order (sample_shop pending) 1 1
                      "2024-05-01 12:00:00").1 in
  reserved bought 7 = reserved (sample_shop completed) 7 + 400 /\
  reserved rejected_ 7 = reserved (sample_shop pending) 7 - 9500 /\
  reserved confirmed 7 = reserved (sample_shop pending) 7 - 9500.
Proof.
  intros data bought rejected_ confirmed.
  destruct funds_are_conserved as (Hbuy & Hreject & Hconfirm).
  split; [|split].
  - apply (Hbuy (sample_shop completed) 7 data "ID7" "2024-05-01 12:00:00"
             (user_with 500)); [reflexivity | simpl; lia..].
  - apply (Hreject (sample_shop pending) 1 1 "2024-05-01 12:00:00"
             (sample_order pending) (user_with 500));
      [reflexivity | reflexivity | reflexivity | simpl; lia..].
  - apply (Hconfirm (sample_shop pending) 1 1 "2024-05-01 12:00:00"
             (sample_order pending)); reflexivity.
Defined.

(** ** The quantity of an app, the amount of a top-up *)

(** X18.  [handle_app_quantity] never stores a price.  A text that is not a
    number or a quantity below the minimum is answered and asked again; for
    every quantity from the minimum up the handler raises -- the quotient
    of the two [int]s is a [float], which a [Decimal] cannot be multiplied
    with (or the minimum is 0 and the division raises) -- and
    [context.user_data] is left as it was. *)
Theorem app_quantity_never_stores_a_price (d : PurchaseManager.app_data)
    (input : option Z) :
  let r := PurchaseManager.handle_app_quantity d input in
  r.1 = d /\
  r.2 <> PurchaseManager.AskForAppId /\
  (input = None -> r.2 = PurchaseManager.QuantityNotANumber) /\
  (forall q : Z, input = Some q ->
     (q < PurchaseManager.ad_min_quantity d ->
        r.2 = PurchaseManager.QuantityBelowMinimum) /\
     (PurchaseManager.ad_min_quantity d <= q ->
        r.2 = PurchaseManager.QuantityRaised)).
Proof.
  intros r. subst r. unfold PurchaseManager.handle_app_quantity.
  destruct input as [q|]; [|by repeat split].
  unfold PurchaseManager.int_truediv, PurchaseManager.decimal_times_float.
  repeat case_decide; repeat split; try done; intros; simplify_eq; lia.
Qed.

Lemma app_quantity_never_stores_a_price_witness :
  let d := {| PurchaseManager.ad_product_id := "netflix";
              PurchaseManager.ad_base_price := 1000;
              PurchaseManager.ad_min_quantity := 100;
              PurchaseManager.ad_quantity := None;
              PurchaseManager.ad_price := None |} in
  (PurchaseManager.handle_app_quantity d (Some 50)).2
    = PurchaseManager.QuantityBelowMinimum /\
  (PurchaseManager.handle_app_quantity d (Some 200)).2
    = PurchaseManager.QuantityRaised /\
  (PurchaseManager.handle_app_quantity d (Some 200)).1 = d.
Proof.
  intros d.
  destruct (app_quantity_never_stores_a_price d (Some 50))
    as (_ & _ & _ & Hlow).
  destruct (app_quantity_never_stores_a_price d (Some 200))
    as (Hsame & _ & _ & Hhigh).
  split; [apply (Hlow 50); [reflexivity | simpl; lia]|].
  split; [apply (Hhigh 200); [reflexivity | simpl; lia] | exact Hsame].
Defined.

(** X19.  [handle_amount] refuses an amount that is not positive and leaves
    the data alone.  For a payment in Syrian pounds (Syriatel, MTN, Sham
    Cash in pounds) it stores the amount as entered and does not touch
    [original_amount] and [original_currency]: what an earlier, abandoned
    dollar attempt stored there stays.  With the crypto method and no
    ['currency'] key it raises. *)
Theorem handle_amount_in_pounds :
  (forall (cfg : RechargeManager.config) (d : RechargeManager.recharge_data)
          (input : Z),
      input <= 0 ->
      RechargeManager.handle_amount cfg d input
        = (d, RechargeManager.AmountRejected)) /\
  (forall (cfg : RechargeManager.config) (d : RechargeManager.recharge_data)
          (input : Z),
      0 < input ->
      RechargeManager.payment_method d <> Some "crypto" ->
      (RechargeManager.payment_method d = Some "shamcash" ->
       RechargeManager.sham_type d <> Some "usd") ->
      let r := RechargeManager.handle_amount cfg d input in
      r.2 = RechargeManager.AskForTxid /\
      RechargeManager.amount r.1 = Some input /\
      RechargeManager.original_amount r.1 = RechargeManager.original_amount d /\
      RechargeManager.original_currency r.1
        = RechargeManager.original_currency d /\
      RechargeManager.payment_method r.1 = RechargeManager.payment_method d) /\
  (forall (cfg : RechargeManager.config) (d : RechargeManager.recharge_data)
          (input : Z),
      0 < input ->
      RechargeManager.payment_method d = Some "crypto" ->
      RechargeManager.currency d = None ->
      RechargeManager.handle_amount cfg d input
        = (d, RechargeManager.AmountRaised)).
Proof.
  split; [|split].
  - intros cfg d input Hle. unfold RechargeManager.handle_amount.
    by case_decide; [|lia].
  - intros cfg d input Hpos Hpm Hsham r.
    assert (Hr : r = (RechargeManager.set_amounts d input None None,
                      RechargeManager.AskForTxid)).
    { subst r. unfold RechargeManager.handle_amount.
      case_decide; [lia|]. case_decide; [done|].
      case_decide as Hs; [|done]. case_decide; [by apply Hsham in Hs | done]. }
    by rewrite Hr.
  - intros cfg d input Hpos Hpm Hcur. unfold RechargeManager.handle_amount.
    case_decide; [lia|]. case_decide; [|done]. by rewrite Hcur.
Qed.

Lemma handle_amount_in_pounds_witness :
  let cfg := {| RechargeManager.USD_RATE := 10000;
                RechargeManager.USDT_RATE := 10000 |} in
  let d := {| RechargeManager.payment_type := Some "syriatel";
              RechargeManager.payment_method := Some "syriatel";
              RechargeManager.wallet_details := None;
              RechargeManager.currency := Some "USDT";
              RechargeManager.sham_type := None;
              RechargeManager.amount := Some 50000;
              RechargeManager.original_amount := Some 5;
              RechargeManager.original_currency := Some "USDT";
              RechargeManager.reject_tx_id := None |} in
  RechargeManager.handle_amount cfg d (- 3) = (d, RechargeManager.AmountRejected) /\
  RechargeManager.amount (RechargeManager.handle_amount cfg d 2000).1
    = Some 2000 /\
  RechargeManager.original_amount (RechargeManager.handle_amount cfg d 2000).1
    = Some 5.
Proof.
  intros cfg d.
  destruct handle_amount_in_pounds as (Hneg & Hsyp & _).
  split; [apply Hneg; lia|].
  destruct (Hsyp cfg d 2000) as (_ & Ha & Hoa & _).
  - lia.
  - simpl. discriminate.
  - simpl. discriminate.
  - split; [exact Ha | exact Hoa].
Defined.

(** X20.  The recharge flow as written never records a request.  Whatever
    amount [handle_amount] accepted, [handle_txid] leaves the store as it
    is; with a transaction number and a payment method at hand its reply is
    the creation error, because [json.dumps] meets the [Decimal] amount in
    the dictionary it is given. *)
Theorem recharge_flow_records_nothing (cfg : RechargeManager.config)
    (d : RechargeManager.recharge_data) (input : Z) (s : db) (user_id : Z)
    (tx_id now : string) :
  let d' := (RechargeManager.handle_amount cfg d input).1 in
  let r := RechargeManager.handle_txid s d' user_id tx_id now in
  r.1 = s /\
  ((RechargeManager.handle_amount cfg d input).2 = RechargeManager.AskForTxid ->
   tx_id <> "" ->
   RechargeManager.payment_method d <> None ->
   r.2 = RechargeManager.TransactionCreationError).
Proof.
  intros d' r.
  destruct (handle_txid_inserts_nothing s d' user_id tx_id now) as [Hs Hne].
  split; [exact Hs|].
  intros Hok Htx Hpm.
  assert (Hd' : exists a, RechargeManager.amount d' = Some a /\
                RechargeManager.payment_method d'
                = RechargeManager.payment_method d).
  { subst d'. revert Hok. unfold RechargeManager.handle_amount.
    repeat case_decide; try discriminate;
      try destruct (RechargeManager.currency d); try discriminate;
      simpl; eauto. }
  destruct Hd' as (a & Ha & Hpm').
  destruct (RechargeManager.payment_method d) as [pm|] eqn:Hpmd; [|done].
  subst r. revert Hne. unfold RechargeManager.handle_txid.
  case_decide; [done|]. rewrite Ha, Hpm'.
  destruct (Database.create_transaction _ _ _ _ _ _ _ _ _) as [s1 [|]];
    simpl; [by intros []|done].
Qed.

Lemma recharge_flow_records_nothing_witness :
  let cfg := {| RechargeManager.USD_RATE := 10000;
                RechargeManager.USDT_RATE := 10000 |} in
  let d := {| RechargeManager.payment_type := Some "syriatel";
              RechargeManager.payment_method := Some "syriatel";
              RechargeManager.wallet_details := None;
              RechargeManager.currency := None;
              RechargeManager.sham_type := None;
              RechargeManager.amount := None;
              RechargeManager.original_amount := None;
              RechargeManager.original_currency := None;
              RechargeManager.reject_tx_id := None |} in
  (RechargeManager.handle_txid empty_db
     (RechargeManager.handle_amount cfg d 2000).1 7 "TX9"
     "2024-05-01 10:00:00").2 = RechargeManager.TransactionCreationError.
Proof.
  intros cfg d.
  destruct (recharge_flow_records_nothing cfg d 2000 empty_db 7 "TX9"
              "2024-05-01 10:00:00") as [_ Hreply].
  apply Hreply; [reflexivity | discriminate | simpl; discriminate].
Defined.

(** ** Edge cases of the status updates *)

(** X21.  [update_order_status] on an order that does not exist reports
    success and appends its log row although no order was updated.  On an
    existing order a status outside the four of the schema fails the
    [CHECK]: the call returns [False] and nothing is written.  A status of
    the schema is set whatever the status of the order was; no balance
    changes. *)
Theorem update_order_status_edge_cases :
  (forall (s : db) (order_id : Z) (status : string) (admin_id : Z)
          (now : string),
      orders s !! order_id = None ->
      let r := Database.update_order_status s order_id status admin_id now in
      r.2 = true /\ orders r.1 = orders s /\ users r.1 = users s /\
      length (admin_logs r.1) = S (length (admin_logs s))) /\
  (forall (s : db) (order_id : Z) (status : string) (admin_id : Z)
          (now : string) (o : order_row),
      orders s !! order_id = Some o ->
      status_of_string status = None ->
      Database.update_order_status s order_id status admin_id now = (s, false)) /\
  (forall (s : db) (order_id : Z) (status : string) (admin_id : Z)
          (now : string) (o : order_row) (st : row_status),
      orders s !! order_id = Some o ->
      status_of_string status = Some st ->
      let r := Database.update_order_status s order_id status admin_id now in
      r.2 = true /\
      Database.get_order r.1 order_id = Some (with_order_status o st now) /\
      users r.1 = users s).
Proof.
  split; [|split].
  - intros s order_id status admin_id now Ho r. subst r. unfold_db.
    rewrite Ho. simpl. repeat split; try done.
    rewrite length_app. simpl. lia.
  - intros s order_id status admin_id now o Ho Hst. unfold_db.
    by rewrite Ho, Hst.
  - intros s order_id status admin_id now o st Ho Hst r. subst r. unfold_db.
    rewrite Ho, Hst. simpl. repeat split; try done.
    by rewrite lookup_insert_eq.
Qed.

Lemma update_order_status_edge_cases_witness :
  (Database.update_order_status (sample_shop pending) 9 "completed" 1
     "2024-05-01 12:00:00").2 = true /\
  Database.update_order_status (sample_shop pending) 1 "shipped" 1
    "2024-05-01 12:00:00" = (sample_shop pending, false) /\
  Database.get_order
    (Database.update_order_status (sample_shop completed) 1 "pending" 1
       "2024-05-01 12:00:00").1 1
  = Some (with_order_status (sample_order completed) pending
            "2024-05-01 12:00:00").
Proof.
  destruct update_order_status_edge_cases as (Hmissing & Hcheck & Hset).
  split; [|split].
  - apply (Hmissing (sample_shop pending) 9 "completed" 1
             "2024-05-01 12:00:00"). reflexivity.
  - apply (Hcheck (sample_shop pending) 1 "shipped" 1 "2024-05-01 12:00:00"
             (sample_order pending)); reflexivity.
  - apply (Hset (sample_shop completed) 1 "pending" 1 "2024-05-01 12:00:00"
             (sample_order completed) pending); reflexivity.
Defined.

(** X22.  [confirm_transaction] on an unknown request returns [False].  When
    the [CHECK] on the balance fails, the status change made before it is
    rolled back with it: the store is unchanged.  When the user of the
    request has no row, the call still returns [True] and completes the
    request, and no balance is credited. *)
Theorem confirm_transaction_edge_cases :
  (forall (s : db) (tx_id : string) (admin_id : Z) (now : string),
      transactions s !! tx_id = None ->
      Database.confirm_transaction s tx_id admin_id now = (s, false)) /\
  (forall (s : db) (tx_id : string) (admin_id : Z) (now : string)
          (t : tx_row) (u : user_row),
      transactions s !! tx_id = Some t ->
      users s !! tx_user_id t = Some u ->
      u_balance u + tx_amount t < 0 ->
      Database.confirm_transaction s tx_id admin_id now = (s, false)) /\
  (forall (s : db) (tx_id : string) (admin_id : Z) (now : string)
          (t : tx_row),
      transactions s !! tx_id = Some t ->
      users s !! tx_user_id t = None ->
      let r := Database.confirm_transaction s tx_id admin_id now in
      r.2 = true /\
      tx_status <$> Database.get_transaction r.1 tx_id = Some completed /\
      users r.1 = users s).
Proof.
  split; [|split].
  - intros s tx_id admin_id now Ht. unfold_db. by rewrite Ht.
  - intros s tx_id admin_id now t u Ht Hu Hneg. unfold_db.
    rewrite Ht. simpl. rewrite Ht. simpl. rewrite Hu.
    by case_decide; [lia|].
  - intros s tx_id admin_id now t Ht Hu r. subst r. unfold_db.
    rewrite Ht. simpl. rewrite Ht. simpl. rewrite Hu. simpl.
    repeat split; try done. by rewrite lookup_insert_eq.
Qed.

Lemma confirm_transaction_edge_cases_witness :
  let orphan := set_users (sample_db pending) ∅ in
  let negative :=
    set_transactions (sample_db pending)
      {[ "TX1" := with_tx_closed
                    {| tx_user_id := 7; tx_amount := - 10; tx_type_ := deposit;
                       tx_payment_method := "syriatel";
                       tx_payment_details := PyDict [];
                       tx_payment_subtype := None; tx_payment_number := None;
                       tx_original_amount := Real (- 10);
                       tx_original_currency := Text "SYP";
                       tx_exchange_rate := Real 1;
                       tx_created_at := "2024-05-01 10:00:00";
                       tx_completed_at := None; tx_status := pending;
                       tx_reject_reason := None; tx_admin_id := None |}
                    pending None 1 "2024-05-01 10:00:00" ]} in
  Database.confirm_transaction (sample_db pending) "TX2" 1
    "2024-05-01 11:00:00" = (sample_db pending, false) /\
  Database.confirm_transaction negative "TX1" 1 "2024-05-01 11:00:00"
    = (negative, false) /\
  (Database.confirm_transaction orphan "TX1" 1 "2024-05-01 11:00:00").2 = true /\
  users (Database.confirm_transaction orphan "TX1" 1
           "2024-05-01 11:00:00").1 = ∅.
Proof.
  intros orphan negative.
  destruct confirm_transaction_edge_cases as (Hmissing & Hcheck & Horphan).
  split; [|split].
  - apply Hmissing. reflexivity.
  - eapply (Hcheck negative "TX1" 1 "2024-05-01 11:00:00" _ (user_with 0));
      [reflexivity | reflexivity | simpl; lia].
  - destruct (Horphan orphan "TX1" 1 "2024-05-01 11:00:00" (sample_tx pending))
      as (Hok & _ & Husers); [reflexivity | reflexivity |].
    split; [exact Hok | exact Husers].
Defined.

(** ** Adjustments *)



(** What an adjustment does to the balance [get_user_balance] reports for
    any user: nothing, or, for the user adjusted and an accepted amount, it
    adds the amount. *)
Lemma modify_user_balance_balance (s : db) (user_id amount admin_id : Z)
    (now : string) (other : Z) :
  let s' := (Database.modify_user_balance s user_id amount admin_id now).1 in
  Database.get_user_balance s' other = Database.get_user_balance s other \/
  (other = user_id /\
   0 <= Database.get_user_balance s other + amount /\
   Database.get_user_balance s' other
     = Database.get_user_balance s other + amount).
Proof.
  intros s'. subst s'. unfold_db.
  destruct (users s !! user_id) as [u|] eqn:Hu; simpl; [|by left].
  case_decide; simpl; [by left|].
  rewrite Hu. case_decide; [|lia]. simpl.
  rewrite lookup_insert. case_decide; [|by left].
  subst other. right. rewrite Hu. simpl. repeat split; lia.
Qed.

(** X24.  The audit trail holds on the adjustment path, for amounts the
    [REAL] columns hold exactly.  When the replay of the history of a user
    gives the balance, and the balance together with the amounts of the
    adjustments of that user stays within 2^53, then after any sequence of
    adjustments by [modify_user_balance], accepted or refused, of that user
    or of others, the replay still gives the balance, and the balance is
    still within 0 and 2^53. *)
Theorem adjustments_keep_the_audit_trail (s : db)
    (adjustments : list (Z * Z * Z * string)) (user_id : Z) :
  replay_history s user_id = Database.get_user_balance s user_id ->
  0 <= Database.get_user_balance s user_id ->
  Database.get_user_balance s user_id + adjusted_total user_id adjustments
    <= 2 ^ 53 ->
  let s' := run_calls s (adjustment_calls adjustments) in
  replay_history s' user_id = Database.get_user_balance s' user_id /\
  0 <= Database.get_user_balance s' user_id <= 2 ^ 53.
Proof.
  revert s. induction adjustments as [|[[[u a] adm] now] rest IH];
    intros s Hs Hpos Hmax; simpl in *.
  - split; [exact Hs | lia].
  - assert (Htail : 0 <= adjusted_total user_id rest).
    { clear. induction rest as [|x rest IH]; simpl; [done|].
      case_decide; lia. }
    apply IH.
    + by apply modify_user_balance_replay.
    + destruct (modify_user_balance_balance s u a adm now user_id)
        as [-> | (_ & Hok & ->)]; lia.
    + destruct (modify_user_balance_balance s u a adm now user_id)
        as [-> | (-> & Hok & ->)]; case_decide; try done; lia.
Qed.

Lemma adjustments_keep_the_audit_trail_witness :
  let s' := run_calls (sample_db pending)
              [ModifyUserBalance 7 300 1 "2024-05-01 12:00:00";
               ModifyUserBalance 7 (- 500) 1 "2024-05-01 12:01:00";
               ModifyUserBalance 7 (- 100) 1 "2024-05-01 12:02:00"] in
  replay_history s' 7 = Database.get_user_balance s' 7 /\
  0 <= Database.get_user_balance s' 7 <= 2 ^ 53.
Proof.
  apply (adjustments_keep_the_audit_trail (sample_db pending)
           [(7, 300, 1, "2024-05-01 12:00:00");
            (7, - 500, 1, "2024-05-01 12:01:00");
            (7, - 100, 1, "2024-05-01 12:02:00")] 7).
  - reflexivity.
  - vm_compute. discriminate.
  - vm_compute. discriminate.
Defined.
